(** * rlgym-ppo: the experience buffer and the learner loop

    A shallow embedding of [rlgym_ppo/ppo/experience_buffer.py] and of
    [rlgym_ppo/learner.py], with the properties of the bounded FIFO
    buffer, of the shuffled minibatches, of checkpoint save/load and
    retention, of the per-epoch report and of the error handling of
    [Learner.learn].

    Tensors are lists of rows (the leading dimension is the list
    length); Python integers are [Z]; Python dictionaries with string
    keys are [gmap string _]; the checkpoint folder is a [gmap Z _]
    keyed by the integer value of the directory names. *)

From Stdlib Require Import ZArith List Lia.
From stdpp Require Import gmap strings list fin_maps sorting.

Open Scope Z_scope.

(** ** Python values used by both files *)

(** The exceptions the modelled code can meet.  The first group are
    subclasses of [Exception]; [KeyboardInterrupt] and [SystemExit]
    derive from [BaseException] only. *)
Inductive PyException : Type :=
| IndexError
| ZeroDivisionError
| AssertionError
| FileNotFoundError
| OtherException (name : string)
| KeyboardInterrupt
| SystemExit.

(** [isinstance(e, Exception)] *)
Definition isinstance_Exception (e : PyException) : bool :=
  match e with
  | KeyboardInterrupt | SystemExit => false
  | _ => true
  end.

Inductive Result (A : Type) : Type :=
| Ok (a : A)
| Raise (e : PyException).
Arguments Ok {A} a.
Arguments Raise {A} e.

(** Clipping of one slice bound against a length, as Python does for
    [x[start:stop]]: a negative bound counts from the end. *)
Definition py_clip (len i : Z) : Z :=
  if i <? 0 then Z.max 0 (i + len) else Z.min i len.

(** [x[start:]] *)
Definition py_slice_from {A} (start : Z) (l : list A) : list A :=
  drop (Z.to_nat (py_clip (Z.of_nat (length l)) start)) l.

(** [x[:stop]] *)
Definition py_slice_to {A} (stop : Z) (l : list A) : list A :=
  take (Z.to_nat (py_clip (Z.of_nat (length l)) stop)) l.

(** [x[start:stop]] *)
Definition py_slice {A} (start stop : Z) (l : list A) : list A :=
  let len := Z.of_nat (length l) in
  let s := py_clip len start in
  let e := py_clip len stop in
  take (Z.to_nat (e - s)) (drop (Z.to_nat s) l).

(** [range(n)]: empty when [n <= 0]. *)
Definition py_range (n : Z) : list Z :=
  Z.of_nat <$> seq 0 (Z.to_nat n).

(** [t[indices]] with a list of non-negative integers: every index has
    to be in range, otherwise [IndexError]. *)
Definition index_select {A} (t : list A) (indices : list nat) : Result (list A) :=
  match mapM (λ i, t !! i) indices with
  | Some r => Ok r
  | None => Raise IndexError
  end.

(** ** [numpy.random.RandomState]

    The generator is numpy's, not this repository's: it is an interface
    here.  [RandomState_seed] is [np.random.RandomState(seed)] and
    [rng_shuffle] is [rng.shuffle(x)], which returns the shuffled list
    and the advanced generator. *)
Class RandomState : Type := {
  rng_state : Type;
  RandomState_seed : Z → rng_state;
  rng_shuffle : rng_state → list nat → list nat * rng_state;
}.

(** What numpy documents of [shuffle]: the contents are permuted. *)
Class RandomStateShuffles (RS : RandomState) : Prop :=
  rng_shuffle_Permutation :
    ∀ (g : rng_state) (l : list nat), (rng_shuffle g l).1 ≡ₚ l.

(** A concrete generator for examples: a linear congruential generator
    driving the Fisher-Yates loop of numpy's legacy [shuffle]
    ([for i in reversed(range(1, n)): j = interval(i); swap]). *)
Definition lcg_next (g : Z) : Z := (1103515245 * g + 12345) mod 2147483648.

Definition list_swap (l : list nat) (i j : nat) : list nat :=
  match l !! i, l !! j with
  | Some a, Some b => <[j:=a]> (<[i:=b]> l)
  | _, _ => l
  end.

Fixpoint fisher_yates (i : nat) (g : Z) (l : list nat) : list nat * Z :=
  match i with
  | O => (l, g)
  | S i' =>
      let g' := lcg_next g in
      let j := Z.to_nat (g' mod (Z.of_nat i + 1)) in
      fisher_yates i' g' (list_swap l i j)
  end.

Definition lcg_shuffle (g : Z) (l : list nat) : list nat * Z :=
  fisher_yates (length l - 1)%nat g l.

Definition lcg_RandomState : RandomState :=
  {| rng_state := Z; RandomState_seed := λ s, s; rng_shuffle := lcg_shuffle |}.

(** ** [torch.as_tensor(x, dtype=torch.float32, device=...)]

    The conversion to single precision is torch's, not this
    repository's: it is an interface here.  [float32 r] is the row [r]
    of the argument as the resulting tensor holds it.  Rows are
    converted one by one, and the storage target has no part in the
    values. *)
Class Float32 (row : Type) : Type := float32 : row → row.

(** ** experience_buffer.py *)

Section ExperienceBuffer.
Context {row : Type} {RS : RandomState} {T32 : Float32 row}.

(** The attributes of an [ExperienceBuffer] object. *)
Record ExperienceBuffer : Type := mkExperienceBuffer {
  device : string;
  seed : Z;
  states : list row;
  actions : list row;
  log_probs : list row;
  rewards : list row;
  next_states : list row;
  dones : list row;
  truncated : list row;
  values : list row;
  advantages : list row;
  max_size : Z;
  rng : rng_state;
}.

(** [ExperienceBuffer.__init__(self, max_size, seed, device)] *)
Definition __init__ (max_size0 seed0 : Z) (device0 : string) : ExperienceBuffer :=
  {| device := device0;
     seed := seed0;
     states := [];
     actions := [];
     log_probs := [];
     rewards := [];
     next_states := [];
     dones := [];
     truncated := [];
     values := [];
     advantages := [];
     max_size := max_size0;
     rng := RandomState_seed seed0 |}.

(** [ExperienceBuffer._clamp_size(self)].  The source reassigns eight
    attributes; [self.truncated] is not among them. *)
Definition _clamp_size (self : ExperienceBuffer) : ExperienceBuffer :=
  let start := Z.of_nat (length (actions self)) - max_size self in
  if 0 <? start then
    {| device := device self;
       seed := seed self;
       states := py_slice_from start (states self);
       actions := py_slice_from start (actions self);
       log_probs := py_slice_from start (log_probs self);
       rewards := py_slice_from start (rewards self);
       next_states := py_slice_from start (next_states self);
       dones := py_slice_from start (dones self);
       truncated := truncated self;
       values := py_slice_from start (values self);
       advantages := py_slice_from start (advantages self);
       max_size := max_size self;
       rng := rng self |}
  else self.

(** The nine arguments of one [submit_experience] call. *)
Record Submission : Type := mkSubmission {
  sub_states : list row;
  sub_actions : list row;
  sub_log_probs : list row;
  sub_rewards : list row;
  sub_next_states : list row;
  sub_dones : list row;
  sub_truncated : list row;
  sub_values : list row;
  sub_advantages : list row;
}.

(** [torch.as_tensor(x, dtype=torch.float32, device=self.device)] *)
Definition as_tensor (x : list row) : list row := float32 <$> x.

(** [ExperienceBuffer.submit_experience(self, states, ..., advantages)]:
    nine [torch.cat((self.x, torch.as_tensor(x, ...)), 0)] and then
    [_clamp_size]. *)
Definition submit_experience (self : ExperienceBuffer) (x : Submission)
  : ExperienceBuffer :=
  _clamp_size
    {| device := device self;
       seed := seed self;
       states := states self ++ as_tensor (sub_states x);
       actions := actions self ++ as_tensor (sub_actions x);
       log_probs := log_probs self ++ as_tensor (sub_log_probs x);
       rewards := rewards self ++ as_tensor (sub_rewards x);
       next_states := next_states self ++ as_tensor (sub_next_states x);
       dones := dones self ++ as_tensor (sub_dones x);
       truncated := truncated self ++ as_tensor (sub_truncated x);
       values := values self ++ as_tensor (sub_values x);
       advantages := advantages self ++ as_tensor (sub_advantages x);
       max_size := max_size self;
       rng := rng self |}.

(** One minibatch: the list [[acts, probs, obs, vals, adv]]. *)
Record Batch : Type := mkBatch {
  batch_acts : list row;
  batch_probs : list row;
  batch_obs : list row;
  batch_vals : list row;
  batch_adv : list row;
}.

(** [self.rng = g] *)
Definition set_rng (self : ExperienceBuffer) (g : rng_state) : ExperienceBuffer :=
  {| device := device self;
     seed := seed self;
     states := states self;
     actions := actions self;
     log_probs := log_probs self;
     rewards := rewards self;
     next_states := next_states self;
     dones := dones self;
     truncated := truncated self;
     values := values self;
     advantages := advantages self;
     max_size := max_size self;
     rng := g |}.

(** The value of [indices] after [self.rng.shuffle(indices)], and the
    generator after the call. *)
Definition shuffled_indices (self : ExperienceBuffer) : list nat * rng_state :=
  rng_shuffle (rng self) (seq 0 (length (rewards self))).

(** The loop [for i in range(n): ... batches.append(...)] over the
    five shuffled tensors. *)
Definition split_batches (batch_size n : Z)
    (acts probs obs vals adv : list row) : list Batch :=
  (λ i,
    let start := i * batch_size in
    let stop := start + batch_size in
    {| batch_acts := py_slice start stop acts;
       batch_probs := py_slice start stop probs;
       batch_obs := py_slice start stop obs;
       batch_vals := py_slice start stop vals;
       batch_adv := py_slice start stop adv |}) <$> py_range n.

(** [ExperienceBuffer.get_all_batches_shuffled(self, batch_size)]:
    the returned value (or the exception) and the object afterwards.
    The shuffle happens before anything can fail. *)
Definition get_all_batches_shuffled (self : ExperienceBuffer) (batch_size : Z)
  : Result (list Batch) * ExperienceBuffer :=
  let '(indices, g) := shuffled_indices self in
  let self' := set_rng self g in
  (match index_select (actions self) indices with
   | Raise e => Raise e
   | Ok acts =>
   match index_select (log_probs self) indices with
   | Raise e => Raise e
   | Ok probs =>
   match index_select (states self) indices with
   | Raise e => Raise e
   | Ok obs =>
   match index_select (values self) indices with
   | Raise e => Raise e
   | Ok vals =>
   match index_select (advantages self) indices with
   | Raise e => Raise e
   | Ok adv =>
       if batch_size =? 0 then Raise ZeroDivisionError
       else
         let n := Z.of_nat (length acts) / batch_size in
         Ok (split_batches batch_size n acts probs obs vals adv)
   end end end end end, self').

(** [ExperienceBuffer.clear(self)]: the nine [del] and then
    [self.__init__(self.max_size, self.seed, self.device)]. *)
Definition clear (self : ExperienceBuffer) : ExperienceBuffer :=
  __init__ (max_size self) (seed self) (device self).

(** *** Runs of a buffer *)

Inductive BufferOp : Type :=
| OpSubmit (x : Submission)
| OpShuffle (batch_size : Z)
| OpClear.

(** What a caller sees of one operation. *)
Inductive BufferOut : Type :=
| OutNone
| OutBatches (r : Result (list Batch)).

Definition run_op (self : ExperienceBuffer) (op : BufferOp)
  : BufferOut * ExperienceBuffer :=
  match op with
  | OpSubmit x => (OutNone, submit_experience self x)
  | OpShuffle bs =>
      let '(r, self') := get_all_batches_shuffled self bs in (OutBatches r, self')
  | OpClear => (OutNone, clear self)
  end.

Fixpoint run_ops (self : ExperienceBuffer) (ops : list BufferOp)
  : list BufferOut * ExperienceBuffer :=
  match ops with
  | [] => ([], self)
  | op :: ops' =>
      let '(o, self1) := run_op self op in
      let '(os, self2) := run_ops self1 ops' in
      (o :: os, self2)
  end.

(** A run of submissions only. *)
Definition submit_all (self : ExperienceBuffer) (xs : list Submission)
  : ExperienceBuffer :=
  foldl submit_experience self xs.

(** The nine arguments of a call have the same leading dimension. *)
Definition matched (x : Submission) : Prop :=
  let n := length (sub_actions x) in
  length (sub_states x) = n ∧ length (sub_log_probs x) = n ∧
  length (sub_rewards x) = n ∧ length (sub_next_states x) = n ∧
  length (sub_dones x) = n ∧ length (sub_truncated x) = n ∧
  length (sub_values x) = n ∧ length (sub_advantages x) = n.

(** All nine resident sequences have length [n]. *)
Definition aligned9 (self : ExperienceBuffer) (n : nat) : Prop :=
  length (states self) = n ∧ length (actions self) = n ∧
  length (log_probs self) = n ∧ length (rewards self) = n ∧
  length (next_states self) = n ∧ length (dones self) = n ∧
  length (truncated self) = n ∧ length (values self) = n ∧
  length (advantages self) = n.

(** The eight sequences that [_clamp_size] trims have length [n]. *)
Definition aligned8 (self : ExperienceBuffer) (n : nat) : Prop :=
  length (states self) = n ∧ length (actions self) = n ∧
  length (log_probs self) = n ∧ length (rewards self) = n ∧
  length (next_states self) = n ∧ length (dones self) = n ∧
  length (values self) = n ∧ length (advantages self) = n.

(** The buffer holds [n] transitions as far as
    [get_all_batches_shuffled] reads it: [rewards] gives the count and
    the five emitted tensors are indexed. *)
Definition holds (self : ExperienceBuffer) (n : nat) : Prop :=
  length (rewards self) = n ∧ length (actions self) = n ∧
  length (log_probs self) = n ∧ length (states self) = n ∧
  length (values self) = n ∧ length (advantages self) = n.

(** The index sets of the minibatches: the slices of the shuffled
    [indices] that the loop takes of every tensor. *)
Definition batch_index_sets (self : ExperienceBuffer) (batch_size : Z)
  : list (list nat) :=
  let indices := (shuffled_indices self).1 in
  let n := Z.of_nat (length indices) / batch_size in
  (λ i, py_slice (i * batch_size) (i * batch_size + batch_size) indices)
    <$> py_range n.

(** The minibatch read off the resident tensors at the given indices. *)
Definition batch_at (self : ExperienceBuffer) (idx : list nat) : Batch → Prop :=
  λ b,
    index_select (actions self) idx = Ok (batch_acts b) ∧
    index_select (log_probs self) idx = Ok (batch_probs b) ∧
    index_select (states self) idx = Ok (batch_obs b) ∧
    index_select (values self) idx = Ok (batch_vals b) ∧
    index_select (advantages self) idx = Ok (batch_adv b).

End ExperienceBuffer.

Arguments ExperienceBuffer row {RS}.
Arguments Submission row : clear implicits.
Arguments Batch row : clear implicits.
Arguments BufferOp row : clear implicits.
Arguments BufferOut row : clear implicits.

(** ** learner.py *)

(** Python floats.  Only the operations [_learn] applies to them occur:
    [np.nan], the conversion of an [int] operand, [-], [/] and the test
    of a divisor against zero that decides [ZeroDivisionError]. *)
Class FloatOps : Type := {
  float : Type;
  nan : float;
  float_of_int : Z → float;
  fsub : float → float → float;
  fdiv : float → float → float;
  fis_zero : float → bool;
}.

(** The handle returned by [wandb.init]. *)
Record WandbRun : Type := mkWandbRun {
  wandb_id : string;
  wandb_project : string;
  wandb_entity : string;
  wandb_group : string;
}.

(** The keys of a report, as the source spells them. *)
Definition Value_Function_Loss : string := "Value Function Loss".
Definition Cumulative_Timesteps : string := "Cumulative Timesteps".
Definition Total_Iteration_Time : string := "Total Iteration Time".
Definition Timesteps_Collected : string := "Timesteps Collected".
Definition Timestep_Collection_Time : string := "Timestep Collection Time".
Definition Timestep_Consumption_Time : string := "Timestep Consumption Time".
Definition Collected_Steps_per_Second : string := "Collected Steps per Second".
Definition Overall_Steps_per_Second : string := "Overall Steps per Second".
Definition Policy_Reward : string := "Policy Reward".

Section Learner.
Context {row : Type} {RS : RandomState} {T32 : Float32 row} {F : FloatOps}.
(** What the collaborators keep to themselves: the worker processes of
    the [BatchedAgentManager], the networks and optimisers of the
    [PPOLearner], the files [PPOLearner.save_to] writes, and the
    clock behind [time.perf_counter]. *)
Context {agent_internals ppo_internals weights clock : Type}.

(** A value of a report: an [int] or a [float]. *)
Inductive Num : Type :=
| PyInt (z : Z)
| PyFloat (f : float).

(** The attributes of [self.agent] that [learner.py] reads or writes. *)
Record Agent : Type := mkAgent {
  cumulative_timesteps : Z;
  average_reward : option float;
  is_BatchedAgentManager : bool;
  agent_rest : agent_internals;
}.

(** The attributes of [self.ppo_learner] that [learner.py] reads or
    writes. *)
Record PPOLearner : Type := mkPPOLearner {
  cumulative_model_updates : Z;
  ppo_rest : ppo_internals;
}.

(** Modelled from the spec: [WelfordRunningStat] of [rlgym_ppo.util]
    is not among the sources.  It holds the count, the running mean
    and the variance accumulator of one scalar channel. *)
Record WelfordRunningStat : Type := mkWelfordRunningStat {
  ws_count : Z;
  ws_mean : float;
  ws_variance : float;
}.

(** Modelled from the spec: the JSON-compatible structure
    [WelfordRunningStat.to_json] produces (count, mean, variance
    accumulator). *)
Record RunningStatJSON : Type := mkRunningStatJSON {
  json_count : Z;
  json_mean : float;
  json_var : float;
}.

(** Modelled from the spec: [WelfordRunningStat.to_json], which
    serialises the three components. *)
Definition to_json (s : WelfordRunningStat) : RunningStatJSON :=
  {| json_count := ws_count s; json_mean := ws_mean s; json_var := ws_variance s |}.

(** Modelled from the spec: [WelfordRunningStat.from_json], which
    restores exactly from the serialised structure. *)
Definition from_json (_ : WelfordRunningStat) (j : RunningStatJSON)
  : WelfordRunningStat :=
  {| ws_count := json_count j; ws_mean := json_mean j; ws_variance := json_var j |}.

(** The four optional keys [wandb_run_id], [wandb_project],
    [wandb_entity], [wandb_group] of the bookkeeping document; they
    are written together or not at all. *)
Record WandbKeys : Type := mkWandbKeys {
  bk_wandb_run_id : string;
  bk_wandb_project : string;
  bk_wandb_entity : string;
  bk_wandb_group : string;
}.

(** The content of [BOOK_KEEPING_VARS.json].  [json.dump] followed by
    [json.load] gives back the integers, floats, [None] and strings
    it was given, so the file holds the document itself. *)
Record BookKeepingVars : Type := mkBookKeepingVars {
  bk_cumulative_timesteps : Z;
  bk_cumulative_model_updates : Z;
  bk_policy_average_reward : option float;
  bk_epoch : Z;
  bk_running_stats : RunningStatJSON;
  bk_wandb : option WandbKeys;
}.

(** One checkpoint directory: the files of [PPOLearner.save_to] and
    the bookkeeping file, each absent until written. *)
Record CheckpointDir : Type := mkCheckpointDir {
  ppo_files : option weights;
  book_keeping_file : option BookKeepingVars;
}.

(** The seven tensors [collect_timesteps] returns as [experience]. *)
Record Experience : Type := mkExperience {
  exp_states : list row;
  exp_actions : list row;
  exp_log_probs : list row;
  exp_rewards : list row;
  exp_next_states : list row;
  exp_dones : list row;
  exp_truncated : list row;
}.

(** The attributes of a [Learner] object. *)
Record Learner : Type := mkLearner {
  n_checkpoints_to_keep : Z;
  checkpoints_save_folder : string;
  save_every_ts : Z;
  timestep_limit : Z;
  ts_per_epoch : Z;
  gae_lambda : float;
  gae_gamma : float;
  return_stats : WelfordRunningStat;
  epoch : Z;
  experience_buffer : ExperienceBuffer row;
  agent : Agent;
  ppo_learner : PPOLearner;
  wandb_run : option WandbRun;
}.

(** What the program does to the outside, in order.  Of the console
    output only the error banner and the traceback of [learn] are
    recorded; the progress messages of [save] and [load] are not. *)
Inductive Event : Type :=
| EvPrint (msg : string)
| EvTraceback (e : PyException)
| EvReport (loggable_metrics : gmap string Num) (run : option WandbRun)
| EvWandbInit (run : WandbRun)
| EvWandbFinish (run : WandbRun)
| EvAgentCleanup.

(** The object together with what it acts on: the directories of
    [checkpoints_save_folder] (keyed by the integer their name
    denotes), the clock, and the log of outside effects. *)
Record Machine : Type := mkMachine {
  self : Learner;
  save_folder : gmap Z CheckpointDir;
  clock_now : clock;
  events : list Event;
}.

(** The collaborators, which are outside [learner.py].  A call that
    can raise returns a [Result]; the object it was called on is
    returned as well, since it may have changed before the raise. *)
Class Collaborators : Type := {
  (** [time.perf_counter()] *)
  perf_counter : clock → float * clock;
  (** [agent.collect_timesteps(n)] *)
  collect_timesteps : Agent → Z → Result (Experience * Z * float) * Agent;
  (** [agent.cleanup()] *)
  agent_cleanup : Agent → Agent;
  (** [value_net(val_inp).flatten().tolist()] *)
  value_net : PPOLearner → list row → Result (list float);
  (** [torch_functions.compute_gae(...)] *)
  compute_gae :
    list row → list row → list row → list float → float → float → float →
    Result (list row * list row * list float);
  (** [return_stats.std[0]] *)
  welford_std : WelfordRunningStat → float;
  (** [return_stats.increment(returns, len(returns))] *)
  welford_increment : WelfordRunningStat → list float → Z → WelfordRunningStat;
  (** [ppo_learner.learn(experience_buffer)] *)
  ppo_learn :
    PPOLearner → ExperienceBuffer row →
    Result (gmap string Num) * PPOLearner * ExperienceBuffer row;
  (** [ppo_learner.save_to(folder_path)]: the files written *)
  ppo_save_to : PPOLearner → weights;
  (** [ppo_learner.load_from(folder_path)] on the files found *)
  ppo_load_from : PPOLearner → option weights → Result unit * PPOLearner;
  (** whether [reporting.report_metrics] raises on a report *)
  report_metrics_raises : gmap string Num → option PyException;
}.
Context {C : Collaborators}.

(** *** Attribute assignment *)

Definition set_epoch (v : Z) (l : Learner) : Learner :=
  {| n_checkpoints_to_keep := n_checkpoints_to_keep l;
     checkpoints_save_folder := checkpoints_save_folder l;
     save_every_ts := save_every_ts l;
     timestep_limit := timestep_limit l;
     ts_per_epoch := ts_per_epoch l;
     gae_lambda := gae_lambda l;
     gae_gamma := gae_gamma l;
     return_stats := return_stats l;
     epoch := v;
     experience_buffer := experience_buffer l;
     agent := agent l;
     ppo_learner := ppo_learner l;
     wandb_run := wandb_run l |}.

Definition set_return_stats (v : WelfordRunningStat) (l : Learner) : Learner :=
  {| n_checkpoints_to_keep := n_checkpoints_to_keep l;
     checkpoints_save_folder := checkpoints_save_folder l;
     save_every_ts := save_every_ts l;
     timestep_limit := timestep_limit l;
     ts_per_epoch := ts_per_epoch l;
     gae_lambda := gae_lambda l;
     gae_gamma := gae_gamma l;
     return_stats := v;
     epoch := epoch l;
     experience_buffer := experience_buffer l;
     agent := agent l;
     ppo_learner := ppo_learner l;
     wandb_run := wandb_run l |}.

Definition set_experience_buffer (v : ExperienceBuffer row) (l : Learner) : Learner :=
  {| n_checkpoints_to_keep := n_checkpoints_to_keep l;
     checkpoints_save_folder := checkpoints_save_folder l;
     save_every_ts := save_every_ts l;
     timestep_limit := timestep_limit l;
     ts_per_epoch := ts_per_epoch l;
     gae_lambda := gae_lambda l;
     gae_gamma := gae_gamma l;
     return_stats := return_stats l;
     epoch := epoch l;
     experience_buffer := v;
     agent := agent l;
     ppo_learner := ppo_learner l;
     wandb_run := wandb_run l |}.

Definition set_agent (v : Agent) (l : Learner) : Learner :=
  {| n_checkpoints_to_keep := n_checkpoints_to_keep l;
     checkpoints_save_folder := checkpoints_save_folder l;
     save_every_ts := save_every_ts l;
     timestep_limit := timestep_limit l;
     ts_per_epoch := ts_per_epoch l;
     gae_lambda := gae_lambda l;
     gae_gamma := gae_gamma l;
     return_stats := return_stats l;
     epoch := epoch l;
     experience_buffer := experience_buffer l;
     agent := v;
     ppo_learner := ppo_learner l;
     wandb_run := wandb_run l |}.

Definition set_ppo_learner (v : PPOLearner) (l : Learner) : Learner :=
  {| n_checkpoints_to_keep := n_checkpoints_to_keep l;
     checkpoints_save_folder := checkpoints_save_folder l;
     save_every_ts := save_every_ts l;
     timestep_limit := timestep_limit l;
     ts_per_epoch := ts_per_epoch l;
     gae_lambda := gae_lambda l;
     gae_gamma := gae_gamma l;
     return_stats := return_stats l;
     epoch := epoch l;
     experience_buffer := experience_buffer l;
     agent := agent l;
     ppo_learner := v;
     wandb_run := wandb_run l |}.

Definition set_wandb_run (v : option WandbRun) (l : Learner) : Learner :=
  {| n_checkpoints_to_keep := n_checkpoints_to_keep l;
     checkpoints_save_folder := checkpoints_save_folder l;
     save_every_ts := save_every_ts l;
     timestep_limit := timestep_limit l;
     ts_per_epoch := ts_per_epoch l;
     gae_lambda := gae_lambda l;
     gae_gamma := gae_gamma l;
     return_stats := return_stats l;
     epoch := epoch l;
     experience_buffer := experience_buffer l;
     agent := agent l;
     ppo_learner := ppo_learner l;
     wandb_run := v |}.

Definition set_cumulative_timesteps (v : Z) (a : Agent) : Agent :=
  {| cumulative_timesteps := v;
     average_reward := average_reward a;
     is_BatchedAgentManager := is_BatchedAgentManager a;
     agent_rest := agent_rest a |}.

Definition set_average_reward (v : option float) (a : Agent) : Agent :=
  {| cumulative_timesteps := cumulative_timesteps a;
     average_reward := v;
     is_BatchedAgentManager := is_BatchedAgentManager a;
     agent_rest := agent_rest a |}.

Definition set_cumulative_model_updates (v : Z) (p : PPOLearner) : PPOLearner :=
  {| cumulative_model_updates := v; ppo_rest := ppo_rest p |}.

Definition with_self (f : Learner → Learner) (m : Machine) : Machine :=
  {| self := f (self m);
     save_folder := save_folder m;
     clock_now := clock_now m;
     events := events m |}.

Definition with_save_folder
    (f : gmap Z CheckpointDir → gmap Z CheckpointDir) (m : Machine) : Machine :=
  {| self := self m;
     save_folder := f (save_folder m);
     clock_now := clock_now m;
     events := events m |}.

Definition emit (ev : list Event) (m : Machine) : Machine :=
  {| self := self m;
     save_folder := save_folder m;
     clock_now := clock_now m;
     events := events m ++ ev |}.

(** *** Statements that can raise *)

Definition Step (A : Type) : Type := Machine → Result A * Machine.

Definition step_ret {A} (a : A) : Step A := λ m, (Ok a, m).

Definition step_bind {A B} (k : A → Step B) (c : Step A) : Step B :=
  λ m, match c m with
       | (Ok a, m') => k a m'
       | (Raise e, m') => (Raise e, m')
       end.

Definition step_raise {A} (e : PyException) : Step A := λ m, (Raise e, m).

(** A statement that cannot raise. *)
Definition step_do (f : Machine → Machine) : Step unit := λ m, (Ok tt, f m).

Definition step_get : Step Machine := λ m, (Ok m, m).

(** A pure computation that can raise. *)
Definition step_of_result {A} (r : Result A) : Step A := λ m, (r, m).

#[local] Instance Step_ret : MRet Step := @step_ret.
#[local] Instance Step_bind : MBind Step := @step_bind.

(** *** [Learner.save] *)

(** [os.makedirs(folder_path, exist_ok=True)] *)
Definition makedirs (k : Z) (d : gmap Z CheckpointDir) : gmap Z CheckpointDir :=
  match d !! k with
  | Some _ => d
  | None => <[k := {| ppo_files := None; book_keeping_file := None |}]> d
  end.

(** [[int(arg) for arg in os.listdir(folder)]], in the order the
    operating system gives. *)
Definition listdir (d : gmap Z CheckpointDir) : list Z := elements (dom d).

(** [shutil.rmtree(os.path.join(folder, str(checkpoint_name)))] *)
Definition rmtree (k : Z) (d : gmap Z CheckpointDir) : gmap Z CheckpointDir :=
  delete k d.

(** The retention step of [save]. *)
Definition prune (keep : Z) (d : gmap Z CheckpointDir) : gmap Z CheckpointDir :=
  let existing_checkpoints := listdir d in
  if keep <? Z.of_nat (length existing_checkpoints) then
    let existing_checkpoints := merge_sort Z.le existing_checkpoints in
    foldl (λ d checkpoint_name, rmtree checkpoint_name d) d
          (py_slice_to (- keep) existing_checkpoints)
  else d.

(** The dictionary [book_keeping_vars] that [save] dumps. *)
Definition book_keeping_vars (l : Learner) : BookKeepingVars :=
  {| bk_cumulative_timesteps := cumulative_timesteps (agent l);
     bk_cumulative_model_updates := cumulative_model_updates (ppo_learner l);
     bk_policy_average_reward := average_reward (agent l);
     bk_epoch := epoch l;
     bk_running_stats := to_json (return_stats l);
     bk_wandb :=
       match wandb_run l with
       | Some r =>
           Some {| bk_wandb_run_id := wandb_id r;
                   bk_wandb_project := wandb_project r;
                   bk_wandb_entity := wandb_entity r;
                   bk_wandb_group := wandb_group r |}
       | None => None
       end |}.

(** [Learner.save(self, cumulative_timesteps)] on the save folder. *)
Definition save_to_folder (l : Learner) (cumulative_timesteps0 : Z)
    (d : gmap Z CheckpointDir) : gmap Z CheckpointDir :=
  let d := makedirs cumulative_timesteps0 d in
  let d := prune (n_checkpoints_to_keep l) d in
  let d := makedirs cumulative_timesteps0 d in
  <[cumulative_timesteps0 :=
      {| ppo_files := Some (ppo_save_to (ppo_learner l));
         book_keeping_file := Some (book_keeping_vars l) |}]> d.

Definition save (cumulative_timesteps0 : Z) (m : Machine) : Machine :=
  with_save_folder (save_to_folder (self m) cumulative_timesteps0) m.

(** A run of [save] calls: the object at the time of each call and the
    key it was called with. *)
Definition save_all (saves : list (Learner * Z)) (d : gmap Z CheckpointDir)
  : gmap Z CheckpointDir :=
  foldl (λ d s, save_to_folder s.1 s.2 d) d saves.

(** What [cleanup] does to the outside, from the state it starts in. *)
Definition cleanup_events (m : Machine) : list Event :=
  match wandb_run (self m) with
  | Some r => [EvWandbFinish r]
  | None => []
  end ++
  (if is_BatchedAgentManager (agent (self m)) then [EvAgentCleanup] else []).

(** *** [Learner.load] *)

(** The assignments of [load] from the parsed document. *)
Definition restore (vars : BookKeepingVars) (l : Learner) : Learner :=
  let l := set_agent (set_cumulative_timesteps (bk_cumulative_timesteps vars) (agent l)) l in
  let l := set_agent (set_average_reward (bk_policy_average_reward vars) (agent l)) l in
  let l := set_ppo_learner
             (set_cumulative_model_updates (bk_cumulative_model_updates vars)
                (ppo_learner l)) l in
  let l := set_return_stats (from_json (return_stats l) (bk_running_stats vars)) l in
  set_epoch (bk_epoch vars) l.

(** [self.ppo_learner.load_from(folder_path)] *)
Definition load_from (files : option weights) : Step unit :=
  λ m, let '(r, p) := ppo_load_from (ppo_learner (self m)) files in
       (r, with_self (set_ppo_learner p) m).

(** [Learner.load(self, folder_path, load_wandb)], for a
    [folder_path] that names directory [folder_path] of the save
    folder.  The result is [wandb_loaded]. *)
Definition load (folder_path : Z) (load_wandb : bool) : Step bool :=
  m ← step_get;
  match save_folder m !! folder_path with
  | None => step_raise AssertionError
  | Some dir =>
      load_from (ppo_files dir);;
      match book_keeping_file dir with
      | None => step_raise FileNotFoundError
      | Some vars =>
          step_do (with_self (restore vars));;
          match bk_wandb vars, load_wandb with
          | Some w, true =>
              let run := {| wandb_id := bk_wandb_run_id w;
                            wandb_project := bk_wandb_project w;
                            wandb_entity := bk_wandb_entity w;
                            wandb_group := bk_wandb_group w |} in
              step_do (emit [EvWandbInit run]);;
              step_do (with_self (set_wandb_run (Some run)));;
              mret true
          | _, _ => mret false
          end
      end
  end.

(** *** [Learner.cleanup] *)

(** The three statements of [cleanup].  [finish] and the agent's
    [cleanup] are taken not to raise. *)
Definition cleanup (m : Machine) : Machine :=
  let m := match wandb_run (self m) with
           | Some r => emit [EvWandbFinish r] m
           | None => m
           end in
  let m := if is_BatchedAgentManager (agent (self m)) then
             emit [EvAgentCleanup]
               (with_self (λ l, set_agent (agent_cleanup (agent l)) l) m)
           else m in
  with_self (λ l, set_experience_buffer (clear (experience_buffer l)) l) m.

(** *** [Learner.add_new_experience] *)

(** [val_inp]: the states followed by [next_states[-1]]. *)
Definition val_inp (e : Experience) : Result (list row) :=
  match last (exp_next_states e) with
  | Some s => Ok (exp_states e ++ [s])
  | None => Raise IndexError
  end.

Definition add_new_experience (e : Experience) : Step unit :=
  m ← step_get;
  let l := self m in
  inp ← step_of_result (val_inp e);
  val_preds ← step_of_result (value_net (ppo_learner l) inp);
  '(value_targets, advantages0, returns) ←
    step_of_result
      (compute_gae (exp_rewards e) (exp_dones e) (exp_truncated e) val_preds
         (gae_gamma l) (gae_lambda l) (welford_std (return_stats l)));
  step_do (with_self (λ l,
    set_return_stats
      (welford_increment (return_stats l) returns (Z.of_nat (length returns))) l));;
  step_do (with_self (λ l,
    set_experience_buffer
      (submit_experience (experience_buffer l)
         {| sub_states := exp_states e;
            sub_actions := exp_actions e;
            sub_log_probs := exp_log_probs e;
            sub_rewards := exp_rewards e;
            sub_next_states := exp_next_states e;
            sub_dones := exp_dones e;
            sub_truncated := exp_truncated e;
            sub_values := value_targets;
            sub_advantages := advantages0 |}) l)).

(** *** [Learner._learn] and [Learner.learn] *)

(** The statements of the loop body from [report |= ppo_report] to the
    last assignment into [report]; the two divisions raise on a zero
    divisor. *)
Definition assemble_report (l : Learner) (ppo_report : gmap string Num)
    (steps_collected : Z) (collection_time epoch_time : float)
  : Result (gmap string Num) :=
  let report : gmap string Num := ∅ in
  let report := ppo_report ∪ report in
  let report := if epoch l <? 1
                then <[Value_Function_Loss := PyFloat nan]> report
                else report in
  let report := <[Cumulative_Timesteps := PyInt (cumulative_timesteps (agent l))]> report in
  let report := <[Total_Iteration_Time := PyFloat epoch_time]> report in
  let report := <[Timesteps_Collected := PyInt steps_collected]> report in
  let report := <[Timestep_Collection_Time := PyFloat collection_time]> report in
  let report := <[Timestep_Consumption_Time :=
                    PyFloat (fsub epoch_time collection_time)]> report in
  if fis_zero collection_time then Raise ZeroDivisionError else
  let report := <[Collected_Steps_per_Second :=
                    PyFloat (fdiv (float_of_int steps_collected) collection_time)]> report in
  if fis_zero epoch_time then Raise ZeroDivisionError else
  let report := <[Overall_Steps_per_Second :=
                    PyFloat (fdiv (float_of_int steps_collected) epoch_time)]> report in
  let report := match average_reward (agent l) with
                | Some r => <[Policy_Reward := PyFloat r]> report
                | None => <[Policy_Reward := PyFloat nan]> report
                end in
  Ok report.

(** [time.perf_counter()] *)
Definition perf_counter_now : Step float :=
  λ m, let '(t, c) := perf_counter (clock_now m) in
       (Ok t, {| self := self m; save_folder := save_folder m;
                 clock_now := c; events := events m |}).

(** [self.agent.collect_timesteps(self.ts_per_epoch)] *)
Definition collect : Step (Experience * Z * float) :=
  λ m, let '(r, a) := collect_timesteps (agent (self m)) (ts_per_epoch (self m)) in
       (r, with_self (set_agent a) m).

(** [self.ppo_learner.learn(self.experience_buffer)] *)
Definition update : Step (gmap string Num) :=
  λ m, let '(r, p, b) := ppo_learn (ppo_learner (self m)) (experience_buffer (self m)) in
       (r, with_self (λ l, set_experience_buffer b (set_ppo_learner p l)) m).

(** [reporting.report_metrics(loggable_metrics=report, debug_metrics=None,
    wandb_run=self.wandb_run)] *)
Definition report_metrics (report : gmap string Num) : Step unit :=
  λ m, let m' := emit [EvReport report (wandb_run (self m))] m in
       match report_metrics_raises report with
       | Some e => (Raise e, m')
       | None => (Ok tt, m')
       end.

(** [if self.epoch * self.ts_per_epoch % self.save_every_ts == 0:
       self.save(int(round(self.epoch * self.ts_per_epoch)))] *)
Definition checkpoint : Step unit :=
  m ← step_get;
  let l := self m in
  if save_every_ts l =? 0 then step_raise ZeroDivisionError
  else if (epoch l * ts_per_epoch l) mod save_every_ts l =? 0
       then step_do (save (epoch l * ts_per_epoch l))
       else mret tt.

(** One iteration of the [while] loop of [_learn]. *)
Definition _learn_epoch : Step unit :=
  epoch_start ← perf_counter_now;
  '(experience, steps_collected, collection_time) ← collect;
  add_new_experience experience;;
  ppo_report ← update;
  epoch_stop ← perf_counter_now;
  let epoch_time := fsub epoch_stop epoch_start in
  m ← step_get;
  report ← step_of_result
             (assemble_report (self m) ppo_report steps_collected
                collection_time epoch_time);
  report_metrics report;;
  checkpoint;;
  step_do (with_self (λ l, set_epoch (epoch l + 1) l)).

(** The [while] loop of [_learn]; [None] when the fuel does not reach
    the end of the loop. *)
Fixpoint _learn_loop (fuel : nat) (m : Machine) {struct fuel}
  : option (Result unit * Machine) :=
  if cumulative_timesteps (agent (self m)) <? timestep_limit (self m) then
    match fuel with
    | O => None
    | S fuel' =>
        match _learn_epoch m with
        | (Ok _, m') => _learn_loop fuel' m'
        | (Raise e, m') => Some (Raise e, m')
        end
    end
  else Some (Ok tt, m).

(** The text of [print("\n\nLEARNING LOOP ENCOUNTERED AN ERROR\n")]. *)
Definition error_banner : string :=
  let newline := String (Ascii.ascii_of_nat 10) EmptyString in
  newline +:+ newline +:+ "LEARNING LOOP ENCOUNTERED AN ERROR" +:+ newline.

(** [Learner._learn(self)]: the loop, then [self.cleanup()]. *)
Definition _learn (fuel : nat) (m : Machine) : option (Result unit * Machine) :=
  match _learn_loop fuel m with
  | Some (Ok _, m') => Some (Ok tt, cleanup m')
  | other => other
  end.

(** [Learner.learn(self)]:
    [try: self._learn()  except Exception: print; print_exc()
     finally: self.cleanup()]. *)
Definition learn (fuel : nat) (m : Machine) : option (Result unit * Machine) :=
  match _learn fuel m with
  | None => None
  | Some (Ok _, m') => Some (Ok tt, cleanup m')
  | Some (Raise e, m') =>
      if isinstance_Exception e then
        Some (Ok tt,
              cleanup (emit [EvPrint error_banner; EvTraceback e] m'))
      else Some (Raise e, cleanup m')
  end.

End Learner.

(** ** Concrete inputs *)

(** Single precision on whole numbers: 24 significant bits, rounded to
    the nearest with ties to the even neighbour.  Numbers below 2^24 in
    magnitude are kept as they are; numbers beyond the range of single
    precision do not occur in the examples. *)
Definition round_float32 (z : Z) : Z :=
  let a := Z.abs z in
  let dropped := Z.log2 a - 23 in
  if dropped <=? 0 then z
  else
    let q := Z.shiftr a dropped in
    let r := a - Z.shiftl q dropped in
    let half := Z.shiftl 1 (dropped - 1) in
    let q := if (half <? r) || ((r =? half) && Z.odd q) then q + 1 else q in
    Z.sgn z * Z.shiftl q dropped.

(** The rows of the examples are whole numbers. *)
#[global] Instance nat_Float32 : Float32 nat :=
  λ n, Z.to_nat (round_float32 (Z.of_nat n)).

(** A submission of [n] transitions numbered from [first]: each of the
    nine tensors carries the number of the transition as its row. *)
Definition numbered (first n : nat) : Submission nat :=
  let l := seq first n in
  {| sub_states := l; sub_actions := l; sub_log_probs := l; sub_rewards := l;
     sub_next_states := l; sub_dones := l; sub_truncated := l; sub_values := l;
     sub_advantages := l |}.

(** The end-to-end scenario: capacity 500 and three batches of 200. *)
Definition scenario_500 : ExperienceBuffer nat (RS := lcg_RandomState) :=
  submit_all (__init__ 500 123 "cpu")
    [numbered 0 200; numbered 200 200; numbered 400 200].

(** Capacity 1 and one submission of two transitions. *)
Definition overfull_1 : ExperienceBuffer nat (RS := lcg_RandomState) :=
  submit_experience (__init__ 1 123 "cpu") (numbered 0 2).

(** ** The nine resident sequences, by name *)

Inductive Column : Type :=
| ColStates | ColActions | ColLogProbs | ColRewards | ColNextStates
| ColDones | ColTruncated | ColValues | ColAdvantages.

(** The resident sequence of a column. *)
Definition resident {row} {RS : RandomState} (c : Column) (b : ExperienceBuffer row)
  : list row :=
  match c with
  | ColStates => states b
  | ColActions => actions b
  | ColLogProbs => log_probs b
  | ColRewards => rewards b
  | ColNextStates => next_states b
  | ColDones => dones b
  | ColTruncated => truncated b
  | ColValues => values b
  | ColAdvantages => advantages b
  end.

(** The argument of [submit_experience] that goes to a column. *)
Definition submitted {row} (c : Column) (x : Submission row) : list row :=
  match c with
  | ColStates => sub_states x
  | ColActions => sub_actions x
  | ColLogProbs => sub_log_probs x
  | ColRewards => sub_rewards x
  | ColNextStates => sub_next_states x
  | ColDones => sub_dones x
  | ColTruncated => sub_truncated x
  | ColValues => sub_values x
  | ColAdvantages => sub_advantages x
  end.

(** Everything a run of submissions sent to a column, oldest first. *)
Definition all_submitted {row} (c : Column) (xs : list (Submission row)) : list row :=
  concat (submitted c <$> xs).

(** The [n] most recent entries of a sequence. *)
Definition last_n {A} (n : nat) (l : list A) : list A :=
  drop (length l - n)%nat l.

(** Capacity 10 and one submission of seven transitions. *)
Definition seven_of_10 : ExperienceBuffer nat (RS := lcg_RandomState) :=
  submit_experience (__init__ 10 123 "cpu") (numbered 0 7).

(** A buffer that differs in its storage target only. *)
Definition set_device {row} {RS : RandomState} (d : string) (b : ExperienceBuffer row)
  : ExperienceBuffer row :=
  {| device := d;
     seed := seed b;
     states := states b;
     actions := actions b;
     log_probs := log_probs b;
     rewards := rewards b;
     next_states := next_states b;
     dones := dones b;
     truncated := truncated b;
     values := values b;
     advantages := advantages b;
     max_size := max_size b;
     rng := rng b |}.

(** ** A concrete learner *)

(** Fixed-point numbers with three decimals and a NaN stand in for
    floats in the examples. *)
Inductive ExFloat : Type :=
| ExNaN
| ExMilli (thousandths : Z).

Definition ex_floats : FloatOps :=
  {| float := ExFloat;
     nan := ExNaN;
     float_of_int := λ z, ExMilli (1000 * z);
     fsub := λ a c, match a, c with
                    | ExMilli x, ExMilli y => ExMilli (x - y)
                    | _, _ => ExNaN
                    end;
     fdiv := λ a c, match a, c with
                    | ExMilli x, ExMilli y => ExMilli (1000 * x / y)
                    | _, _ => ExNaN
                    end;
     fis_zero := λ a, match a with
                      | ExMilli x => x =? 0
                      | ExNaN => false
                      end |}.

Abbreviation ExAgent := (Agent (F := ex_floats) (agent_internals := unit)).
Abbreviation ExPPOLearner := (PPOLearner (ppo_internals := unit)).
Abbreviation ExStat := (WelfordRunningStat (F := ex_floats)).
Abbreviation ExReport := (gmap string (Num (F := ex_floats))).

(** The collector of the examples returns the transitions asked for,
    numbered from the running count, or raises [fault] when there is
    one. *)
Definition ex_collect_timesteps (fault : option PyException) (a : ExAgent) (n : Z)
  : Result (Experience (row := nat) * Z * ExFloat) * ExAgent :=
  match fault with
  | Some e => (Raise e, a)
  | None =>
      let l := seq (Z.to_nat (cumulative_timesteps a)) (Z.to_nat n) in
      (Ok ({| exp_states := l; exp_actions := l; exp_log_probs := l;
              exp_rewards := l; exp_next_states := l; exp_dones := l;
              exp_truncated := l |}, n, ExMilli 500),
       set_cumulative_timesteps (cumulative_timesteps a + n) a)
  end.

(** The update of the examples reports a value-function loss of 0.25. *)
Definition ex_ppo_learn (p : ExPPOLearner)
    (b : ExperienceBuffer nat (RS := lcg_RandomState))
  : Result ExReport * ExPPOLearner * ExperienceBuffer nat (RS := lcg_RandomState) :=
  (Ok {[ Value_Function_Loss := PyFloat (F := ex_floats) (ExMilli 250) ]},
   set_cumulative_model_updates (cumulative_model_updates p + 1) p, b).

Definition ex_compute_gae (rewards0 _ _ : list nat) (_ : list ExFloat)
    (_ _ _ : ExFloat) : Result (list nat * list nat * list ExFloat) :=
  Ok (rewards0, rewards0, (λ _, ExMilli 0) <$> rewards0).

Definition ex_welford_increment (s : ExStat) (_ : list ExFloat) (n : Z) : ExStat :=
  {| ws_count := ws_count s + n; ws_mean := ws_mean s;
     ws_variance := ws_variance s |}.

Definition ex_ppo_load_from (p : ExPPOLearner) (w : option Z)
  : Result unit * ExPPOLearner :=
  match w with
  | Some u => (Ok tt, set_cumulative_model_updates u p)
  | None => (Raise FileNotFoundError, p)
  end.

(** Collaborators for the examples; the clock advances by one second
    per reading. *)
Definition ex_collaborators (fault : option PyException)
  : Collaborators (row := nat) (RS := lcg_RandomState) (F := ex_floats)
      (agent_internals := unit) (ppo_internals := unit) (weights := Z) (clock := Z) :=
  @Build_Collaborators nat lcg_RandomState ex_floats unit unit Z Z
    (λ c, (ExMilli (1000 * c), c + 1))
    (ex_collect_timesteps fault)
    (λ a, a)
    (λ _ inp, Ok ((λ _, ExMilli 0) <$> inp))
    ex_compute_gae
    (λ _, ExMilli 1000)
    ex_welford_increment
    ex_ppo_learn
    (λ p, cumulative_model_updates p)
    ex_ppo_load_from
    (λ _, None).

(** A learner as [Learner.__init__] leaves it, with a limit of four
    timesteps, two per epoch, a checkpoint every two and one checkpoint
    kept. *)
Definition ex_learner
  : Learner (row := nat) (RS := lcg_RandomState) (F := ex_floats)
      (agent_internals := unit) (ppo_internals := unit) :=
  @mkLearner nat lcg_RandomState ex_floats unit unit
    (* n_checkpoints_to_keep *) 1
    (* checkpoints_save_folder *) "data/checkpoints/rlgym-ppo-run"
    (* save_every_ts *) 2
    (* timestep_limit *) 4
    (* ts_per_epoch *) 2
    (* gae_lambda *) (ExMilli 950)
    (* gae_gamma *) (ExMilli 990)
    (* return_stats *) (@mkWelfordRunningStat ex_floats 0 (ExMilli 0) (ExMilli 1000))
    (* epoch *) 0
    (* experience_buffer *) (__init__ 500 123 "cpu")
    (* agent *) (@mkAgent ex_floats unit 0 None true tt)
    (* ppo_learner *) (@mkPPOLearner unit 0 tt)
    (* wandb_run *) None.

Definition ex_machine
  : Machine (row := nat) (RS := lcg_RandomState) (F := ex_floats)
      (agent_internals := unit) (ppo_internals := unit) (weights := Z) (clock := Z) :=
  @mkMachine nat lcg_RandomState ex_floats unit unit Z Z ex_learner ∅ 0 [].

(** ** Statements that report nothing *)

Section Quiet.
Context {row : Type} {RS : RandomState} {F : FloatOps}.
Context {agent_internals ppo_internals weights clock : Type}.

(** A statement is quiet when, however it ends, it has added nothing
    to the log of outside effects and has left [self.epoch] and
    [self.wandb_run] as they were. *)
Definition quiet {A} (c : Step (row := row) (agent_internals := agent_internals)
                            (ppo_internals := ppo_internals) (weights := weights)
                            (clock := clock) A) : Prop :=
  ∀ m r m', c m = (r, m') →
    events m' = events m ∧ epoch (self m') = epoch (self m) ∧
    wandb_run (self m') = wandb_run (self m).
End Quiet.

(** ** Runs of the loop of [_learn] *)

Section LoopRuns.
Context {row : Type} {RS : RandomState} {T32 : Float32 row} {F : FloatOps}.
Context {agent_internals ppo_internals weights clock : Type}.
Context {C : Collaborators (row := row) (agent_internals := agent_internals)
               (ppo_internals := ppo_internals) (weights := weights) (clock := clock)}.
Implicit Types (m : Machine (row := row) (agent_internals := agent_internals)
                      (ppo_internals := ppo_internals) (weights := weights)
                      (clock := clock)).

(** The object after [n] iterations of the [while] loop, each entered
    with the condition true and run to its end; [None] when the loop
    does not get that far. *)
Fixpoint epochs (n : nat) m {struct n} : option Machine :=
  match n with
  | O => Some m
  | S n' =>
      if cumulative_timesteps (agent (self m)) <? timestep_limit (self m) then
        match _learn_epoch m with
        | (Ok _, m') => epochs n' m'
        | (Raise _, _) => None
        end
      else None
  end.

(** One of the steps of an iteration started in [m] raises [e] and
    leaves [m1]: the collection, the integration of the experience,
    the update, the report (its assembly or its dispatch) or the
    checkpoint, the steps before it having returned. *)
Inductive epoch_step_raises m (e : PyException) (m1 : Machine) : Prop :=
| raises_collect t0 ma :
    perf_counter_now m = (Ok t0, ma) →
    collect ma = (Raise e, m1) →
    epoch_step_raises m e m1
| raises_integrate t0 ma experience steps_collected collection_time mb :
    perf_counter_now m = (Ok t0, ma) →
    collect ma = (Ok (experience, steps_collected, collection_time), mb) →
    add_new_experience experience mb = (Raise e, m1) →
    epoch_step_raises m e m1
| raises_update t0 ma experience steps_collected collection_time mb mc :
    perf_counter_now m = (Ok t0, ma) →
    collect ma = (Ok (experience, steps_collected, collection_time), mb) →
    add_new_experience experience mb = (Ok tt, mc) →
    update mc = (Raise e, m1) →
    epoch_step_raises m e m1
| raises_report_assembly t0 ma experience steps_collected collection_time mb mc
    ppo_report md t1 :
    perf_counter_now m = (Ok t0, ma) →
    collect ma = (Ok (experience, steps_collected, collection_time), mb) →
    add_new_experience experience mb = (Ok tt, mc) →
    update mc = (Ok ppo_report, md) →
    perf_counter_now md = (Ok t1, m1) →
    assemble_report (self m1) ppo_report steps_collected collection_time
      (fsub t1 t0) = Raise e →
    epoch_step_raises m e m1
| raises_report t0 ma experience steps_collected collection_time mb mc
    ppo_report md t1 me report :
    perf_counter_now m = (Ok t0, ma) →
    collect ma = (Ok (experience, steps_collected, collection_time), mb) →
    add_new_experience experience mb = (Ok tt, mc) →
    update mc = (Ok ppo_report, md) →
    perf_counter_now md = (Ok t1, me) →
    assemble_report (self me) ppo_report steps_collected collection_time
      (fsub t1 t0) = Ok report →
    report_metrics report me = (Raise e, m1) →
    epoch_step_raises m e m1
| raises_checkpoint t0 ma experience steps_collected collection_time mb mc
    ppo_report md t1 me report mf :
    perf_counter_now m = (Ok t0, ma) →
    collect ma = (Ok (experience, steps_collected, collection_time), mb) →
    add_new_experience experience mb = (Ok tt, mc) →
    update mc = (Ok ppo_report, md) →
    perf_counter_now md = (Ok t1, me) →
    assemble_report (self me) ppo_report steps_collected collection_time
      (fsub t1 t0) = Ok report →
    report_metrics report me = (Ok tt, mf) →
    checkpoint mf = (Raise e, m1) →
    epoch_step_raises m e m1.
End LoopRuns.

(** ** Further definitions *)

(** What [Learner.__init__] makes of its [device] argument, given
    [torch.cuda.is_available()]:
    [if device in {"auto", "gpu"} and cuda: "cuda:0"
     elif device == "auto" and not cuda: "cpu"
     else: device]. *)
Definition resolve_device (device0 : string) (cuda_is_available : bool) : string :=
  if (bool_decide (device0 = "auto") || bool_decide (device0 = "gpu"))
     && cuda_is_available
  then "cuda:0"
  else if bool_decide (device0 = "auto") && negb cuda_is_available
       then "cpu"
       else device0.

(** The keys [_learn] writes into every report, whatever the update
    returned. *)
Definition loop_metric_names : list string :=
  [Cumulative_Timesteps; Total_Iteration_Time; Timesteps_Collected;
   Timestep_Collection_Time; Timestep_Consumption_Time;
   Collected_Steps_per_Second; Overall_Steps_per_Second; Policy_Reward].

Section Frames.
Context {row : Type} {RS : RandomState} {F : FloatOps}.
Context {agent_internals ppo_internals weights clock : Type}.

(** A statement preserves an observation [f] of the machine when,
    however it ends, [f] reads the same afterwards. *)
Definition preserves {A B}
    (f : Machine (row := row) (agent_internals := agent_internals)
           (ppo_internals := ppo_internals) (weights := weights)
           (clock := clock) → B)
    (c : Step A) : Prop :=
  ∀ m r m', c m = (r, m') → f m' = f m.

(** The two settings that bound the loop of [_learn]. *)
Definition loop_config
    (m : Machine (row := row) (agent_internals := agent_internals)
           (ppo_internals := ppo_internals) (weights := weights)
           (clock := clock)) : Z * Z :=
  (timestep_limit (self m), ts_per_epoch (self m)).

(** The timesteps left to collect before the loop of [_learn] ends. *)
Definition timesteps_left
    (m : Machine (row := row) (agent_internals := agent_internals)
           (ppo_internals := ppo_internals) (weights := weights)
           (clock := clock)) : Z :=
  timestep_limit (self m) - cumulative_timesteps (agent (self m)).

(** The limit, the timesteps per epoch and the timesteps collected so
    far, which together decide when the loop ends. *)
Definition loop_view
    (m : Machine (row := row) (agent_internals := agent_internals)
           (ppo_internals := ppo_internals) (weights := weights)
           (clock := clock)) : Z * Z * Z :=
  (loop_config m, cumulative_timesteps (agent (self m))).
End Frames.

(** Two matched submissions, of three and of four transitions. *)
Definition two_submissions : list (Submission nat) :=
  [numbered 0 3; numbered 3 4].

(** The same seven transitions in one submission. *)
Definition one_submission : list (Submission nat) := [numbered 0 7].

(** A buffer of capacity 10 holding six transitions. *)
Definition six_of_10 : ExperienceBuffer nat (RS := lcg_RandomState) :=
  submit_experience (__init__ 10 7 "cpu") (numbered 0 6).

(** A buffer whose [actions] are one row short of the other
    sequences, as a submission with mismatched lengths leaves it. *)
Definition short_actions : ExperienceBuffer nat (RS := lcg_RandomState) :=
  submit_experience (__init__ 10 7 "cpu")
    {| sub_states := [0; 1; 2]%nat; sub_actions := [0; 1]%nat;
       sub_log_probs := [0; 1; 2]%nat; sub_rewards := [0; 1; 2]%nat;
       sub_next_states := [0; 1; 2]%nat; sub_dones := [0; 1; 2]%nat;
       sub_truncated := [0; 1; 2]%nat; sub_values := [0; 1; 2]%nat;
       sub_advantages := [0; 1; 2]%nat |}.

(** The example learner with another keep-count. *)
Definition ex_learner_keeping (keep : Z)
  : Learner (row := nat) (RS := lcg_RandomState) (F := ex_floats)
      (agent_internals := unit) (ppo_internals := unit) :=
  @mkLearner nat lcg_RandomState ex_floats unit unit
    keep "data/checkpoints/rlgym-ppo-run" 2 4 2 (ExMilli 950) (ExMilli 990)
    (@mkWelfordRunningStat ex_floats 0 (ExMilli 0) (ExMilli 1000))
    0 (__init__ 500 123 "cpu") (@mkAgent ex_floats unit 0 None true tt)
    (@mkPPOLearner unit 0 tt) None.

(** A save folder that holds checkpoint 10 of the example learner. *)
Definition ex_folder_10 : gmap Z (CheckpointDir (F := ex_floats) (weights := Z)) :=
  save_to_folder (C := ex_collaborators None) ex_learner 10 ∅.

(** The example learner with a tracking run attached. *)
Definition ex_run : WandbRun :=
  {| wandb_id := "run-1"; wandb_project := "rlgym-ppo";
     wandb_entity := "team"; wandb_group := "unnamed-runs" |}.

Definition ex_machine_tracked
  : Machine (row := nat) (RS := lcg_RandomState) (F := ex_floats)
      (agent_internals := unit) (ppo_internals := unit) (weights := Z) (clock := Z) :=
  with_self (set_wandb_run (Some ex_run)) ex_machine.

(** A save folder with a directory 3 that holds the model files but no
    bookkeeping file. *)
Definition ex_folder_no_bookkeeping
  : gmap Z (CheckpointDir (F := ex_floats) (weights := Z)) :=
  {[ 3 := {| ppo_files := Some 9; book_keeping_file := None |} ]}.

(** A save folder with an empty directory 8. *)
Definition ex_folder_no_files
  : gmap Z (CheckpointDir (F := ex_floats) (weights := Z)) :=
  {[ 8 := {| ppo_files := None; book_keeping_file := None |} ]}.

(** An experience with no transition at all. *)
Definition ex_no_experience : Experience (row := nat) :=
  {| exp_states := []; exp_actions := []; exp_log_probs := []; exp_rewards := [];
     exp_next_states := []; exp_dones := []; exp_truncated := [] |}.

(** * Properties *)

(** ** Slices and indexing *)

Section Slices.
Context {A : Type}.
Implicit Types l : list A.

Lemma py_slice_from_drop start l :
  py_slice_from start l = drop (Z.to_nat start) l ∨ start < 0.
Proof.
  destruct (Z.ltb_spec start 0) as [Hneg|Hpos]; [by right|left].
  unfold py_slice_from, py_clip.
  destruct (Z.ltb_spec start 0); [lia|].
  destruct (Z.le_gt_cases start (Z.of_nat (length l))).
  - by rewrite Z.min_l by lia.
  - rewrite Z.min_r by lia. rewrite Nat2Z.id.
    rewrite drop_all. symmetry. apply drop_ge. lia.
Qed.

Lemma py_slice_inside s e l :
  0 ≤ s → s ≤ e → e ≤ Z.of_nat (length l) →
  py_slice s e l = take (Z.to_nat (e - s)) (drop (Z.to_nat s) l).
Proof.
  intros Hs Hse He. unfold py_slice, py_clip.
  destruct (Z.ltb_spec s 0); [lia|]. destruct (Z.ltb_spec e 0); [lia|].
  by rewrite !Z.min_l by lia.
Qed.

Lemma index_select_Ok_iff (t : list A) idx r :
  index_select t idx = Ok r ↔ Forall2 (λ i x, t !! i = Some x) idx r.
Proof.
  unfold index_select. rewrite <-mapM_Some.
  destruct (mapM _ idx); split; intros; simplify_eq; done.
Qed.

Lemma index_select_in_range (t : list A) idx :
  Forall (λ i, (i < length t)%nat) idx →
  ∃ r, index_select t idx = Ok r ∧ length r = length idx.
Proof.
  intros Hidx.
  assert (is_Some (mapM (λ i, t !! i) idx)) as [r Hr].
  { apply mapM_is_Some. eapply Forall_impl; [done|].
    intros i Hi. by apply lookup_lt_is_Some. }
  exists r. unfold index_select. rewrite Hr. split; [done|].
  apply mapM_Some in Hr. symmetry. by eapply Forall2_length.
Qed.

(** Slicing a gathered tensor is gathering at the sliced indices. *)
Lemma index_select_py_slice (t : list A) idx r s e :
  index_select t idx = Ok r →
  index_select t (py_slice s e idx) = Ok (py_slice s e r).
Proof.
  rewrite !index_select_Ok_iff. intros H.
  pose proof (Forall2_length _ _ _ H) as Hlen.
  unfold py_slice. rewrite Hlen.
  by apply Forall2_take, Forall2_drop.
Qed.
End Slices.

(** ** The resident sequences under [submit_experience] *)

Section BufferColumns.
Context {row : Type} {RS : RandomState} {T32 : Float32 row}.
Implicit Types (b : ExperienceBuffer row) (x : Submission row) (c : Column).
Implicit Types xs : list (Submission row).

Lemma matched_submitted x c :
  matched x → length (submitted c x) = length (sub_actions x).
Proof. intros (?&?&?&?&?&?&?&?). by destruct c. Qed.

Lemma aligned9_resident b n : aligned9 b n ↔ ∀ c, length (resident c b) = n.
Proof.
  split.
  - intros (?&?&?&?&?&?&?&?&?) c. by destruct c.
  - intros H. repeat split.
    + apply (H ColStates). + apply (H ColActions). + apply (H ColLogProbs).
    + apply (H ColRewards). + apply (H ColNextStates). + apply (H ColDones).
    + apply (H ColTruncated). + apply (H ColValues). + apply (H ColAdvantages).
Qed.

Lemma aligned8_resident b n :
  aligned8 b n ↔ ∀ c, c ≠ ColTruncated → length (resident c b) = n.
Proof.
  split.
  - intros (?&?&?&?&?&?&?&?) c Hc. by destruct c.
  - intros H. repeat split.
    + by apply (H ColStates). + by apply (H ColActions).
    + by apply (H ColLogProbs). + by apply (H ColRewards).
    + by apply (H ColNextStates). + by apply (H ColDones).
    + by apply (H ColValues). + by apply (H ColAdvantages).
Qed.

Lemma aligned8_holds b n : aligned8 b n → holds b n.
Proof. intros (?&?&?&?&?&?&?&?). by repeat split. Qed.

(** [_clamp_size] drops the same number of leading rows from every
    sequence but [truncated]. *)
Lemma _clamp_size_resident b c :
  c ≠ ColTruncated →
  resident c (_clamp_size b)
  = drop (Z.to_nat (Z.of_nat (length (actions b)) - max_size b)) (resident c b).
Proof.
  intros Hc. unfold _clamp_size.
  set (start := Z.of_nat (length (actions b)) - max_size b).
  destruct (Z.ltb_spec 0 start) as [Hpos|Hneg].
  - assert (∀ l : list row, py_slice_from start l = drop (Z.to_nat start) l) as Hdrop.
    { intros l. destruct (py_slice_from_drop start l); [done|lia]. }
    destruct c; simpl; by rewrite ?Hdrop.
  - by replace (Z.to_nat start) with 0%nat by lia.
Qed.

(** [_clamp_size] never touches [truncated]. *)
Lemma _clamp_size_truncated b : truncated (_clamp_size b) = truncated b.
Proof. unfold _clamp_size. by destruct (_ <? _). Qed.

Lemma _clamp_size_frame b :
  max_size (_clamp_size b) = max_size b ∧ seed (_clamp_size b) = seed b ∧
  device (_clamp_size b) = device b ∧ rng (_clamp_size b) = rng b.
Proof. unfold _clamp_size. by destruct (_ <? _). Qed.

Lemma submit_experience_frame b x :
  max_size (submit_experience b x) = max_size b ∧
  seed (submit_experience b x) = seed b ∧
  device (submit_experience b x) = device b ∧
  rng (submit_experience b x) = rng b.
Proof.
  unfold submit_experience.
  by destruct (_clamp_size_frame
    {| device := device b; seed := seed b;
       states := states b ++ as_tensor (sub_states x);
       actions := actions b ++ as_tensor (sub_actions x);
       log_probs := log_probs b ++ as_tensor (sub_log_probs x);
       rewards := rewards b ++ as_tensor (sub_rewards x);
       next_states := next_states b ++ as_tensor (sub_next_states x);
       dones := dones b ++ as_tensor (sub_dones x);
       truncated := truncated b ++ as_tensor (sub_truncated x);
       values := values b ++ as_tensor (sub_values x);
       advantages := advantages b ++ as_tensor (sub_advantages x);
       max_size := max_size b; rng := rng b |}) as (->&->&->&->).
Qed.

Lemma submit_all_frame b xs :
  max_size (submit_all b xs) = max_size b ∧ seed (submit_all b xs) = seed b ∧
  device (submit_all b xs) = device b ∧ rng (submit_all b xs) = rng b.
Proof.
  revert b. induction xs as [|x xs IH]; intros b; [done|]. simpl.
  destruct (IH (submit_experience b x)) as (->&->&->&->).
  apply submit_experience_frame.
Qed.

Lemma submit_all_snoc b xs x :
  submit_all b (xs ++ [x]) = submit_experience (submit_all b xs) x.
Proof. unfold submit_all. by rewrite foldl_app. Qed.

Lemma submit_experience_resident b x c :
  c ≠ ColTruncated →
  resident c (submit_experience b x)
  = drop (Z.to_nat (Z.of_nat (length (actions b ++ as_tensor (sub_actions x)))
                    - max_size b))
      (resident c b ++ as_tensor (submitted c x)).
Proof.
  intros Hc. unfold submit_experience. rewrite _clamp_size_resident by done.
  by destruct c.
Qed.

Lemma submit_experience_truncated b x :
  truncated (submit_experience b x) = truncated b ++ as_tensor (sub_truncated x).
Proof. unfold submit_experience. by rewrite _clamp_size_truncated. Qed.

Lemma all_submitted_snoc c xs x :
  all_submitted c (xs ++ [x]) = all_submitted c xs ++ submitted c x.
Proof.
  unfold all_submitted. rewrite fmap_app, concat_app. simpl.
  by rewrite app_nil_r.
Qed.

Lemma all_submitted_length c xs :
  Forall matched xs →
  length (all_submitted c xs) = length (all_submitted ColActions xs).
Proof.
  induction 1 as [|x xs Hx _ IH]; [done|].
  unfold all_submitted in *. rewrite !fmap_cons. simpl.
  rewrite !length_app, IH.
  by rewrite (matched_submitted x c).
Qed.

Lemma as_tensor_app (x y : list row) :
  as_tensor (x ++ y) = as_tensor x ++ as_tensor y.
Proof. apply fmap_app. Qed.

Lemma as_tensor_length (x : list row) : length (as_tensor x) = length x.
Proof. apply length_fmap. Qed.

(** [truncated] keeps every row ever submitted, as converted. *)
Lemma submit_all_truncated max_size0 seed0 device0 xs :
  truncated (submit_all (__init__ max_size0 seed0 device0) xs)
  = as_tensor (all_submitted ColTruncated xs).
Proof.
  induction xs as [|x xs IH] using rev_ind; [done|].
  by rewrite submit_all_snoc, submit_experience_truncated, IH, all_submitted_snoc,
    as_tensor_app.
Qed.

(** FIFO for the eight trimmed sequences: after matched submissions
    into a new buffer each of them is the [max_size] most recent rows
    sent to it, as converted. *)
Lemma submit_all_fifo max_size0 seed0 device0 xs c :
  0 ≤ max_size0 → Forall matched xs → c ≠ ColTruncated →
  resident c (submit_all (__init__ max_size0 seed0 device0) xs)
  = last_n (Z.to_nat max_size0) (as_tensor (all_submitted c xs)).
Proof.
  intros Hmax Hxs Hc. revert c Hc.
  induction xs as [|x xs IH] using rev_ind; intros c Hc.
  { by destruct c. }
  apply Forall_app in Hxs as [Hxs Hx]. rewrite Forall_singleton in Hx.
  specialize (IH Hxs).
  rewrite submit_all_snoc, submit_experience_resident by done.
  destruct (submit_all_frame (__init__ max_size0 seed0 device0) xs) as (->&_).
  assert (actions (submit_all (__init__ max_size0 seed0 device0) xs)
          = last_n (Z.to_nat max_size0) (as_tensor (all_submitted ColActions xs)))
    as -> by (by apply (IH ColActions)).
  simpl. rewrite IH by done.
  rewrite all_submitted_snoc, as_tensor_app. unfold last_n.
  rewrite !length_app, !length_drop, !as_tensor_length.
  pose proof (all_submitted_length c xs Hxs) as Hlen.
  pose proof (matched_submitted x c Hx) as Hlenx.
  pose proof (matched_submitted x ColActions Hx) as Hlena. simpl in Hlena.
  set (T := length (all_submitted ColActions xs)) in *.
  set (k := length (sub_actions x)) in *.
  rewrite Hlen, Hlenx.
  rewrite <-(drop_app_le (as_tensor (all_submitted c xs))
               (as_tensor (submitted c x)))
    by (rewrite as_tensor_length; lia).
  rewrite drop_drop. f_equal. rewrite ?as_tensor_length. lia.
Qed.

Lemma last_n_length {A} n (l : list A) :
  length (last_n n l) = Nat.min n (length l).
Proof. unfold last_n. rewrite length_drop. lia. Qed.

(** The eight trimmed sequences stay aligned. *)
Lemma submit_all_aligned8 max_size0 seed0 device0 xs :
  0 ≤ max_size0 → Forall matched xs →
  aligned8 (submit_all (__init__ max_size0 seed0 device0) xs)
    (Nat.min (Z.to_nat max_size0) (length (all_submitted ColActions xs))).
Proof.
  intros Hmax Hxs. apply aligned8_resident. intros c Hc.
  rewrite submit_all_fifo, last_n_length, as_tensor_length by done.
  by rewrite all_submitted_length.
Qed.
End BufferColumns.

(** ** Consecutive slices *)

Section Chunks.
Context {A : Type}.
Implicit Types l : list A.

Lemma py_range_S (n : nat) :
  py_range (Z.of_nat (S n)) = py_range (Z.of_nat n) ++ [Z.of_nat n].
Proof.
  unfold py_range. rewrite !Nat2Z.id, seq_S, fmap_app. done.
Qed.

Lemma elem_of_py_range i n : i ∈ py_range n ↔ 0 ≤ i < n.
Proof.
  unfold py_range. rewrite list_elem_of_fmap. split.
  - intros (k & -> & Hk). apply elem_of_seq in Hk. lia.
  - intros Hi. exists (Z.to_nat i). split; [lia|]. apply elem_of_seq. lia.
Qed.

(** The slices [l[0:bs]], [l[bs:2bs]], ... laid end to end are a
    prefix of [l]. *)
Lemma concat_py_slices l bs (n : nat) :
  0 < bs → Z.of_nat n * bs ≤ Z.of_nat (length l) →
  concat ((λ i, py_slice (i * bs) (i * bs + bs) l) <$> py_range (Z.of_nat n))
  = take (n * Z.to_nat bs) l.
Proof.
  intros Hbs. induction n as [|n IH]; intros Hn; [done|].
  rewrite py_range_S, fmap_app, concat_app, IH by lia. simpl.
  rewrite app_nil_r, py_slice_inside by lia.
  replace (Z.to_nat (Z.of_nat n * bs + bs - Z.of_nat n * bs)) with (Z.to_nat bs) by lia.
  replace (Z.to_nat (Z.of_nat n * bs)) with (n * Z.to_nat bs)%nat by lia.
  rewrite take_take_drop. f_equal. lia.
Qed.

Lemma py_slice_chunk_length l bs i n :
  0 < bs → 0 ≤ i < n → n * bs ≤ Z.of_nat (length l) →
  length (py_slice (i * bs) (i * bs + bs) l) = Z.to_nat bs.
Proof.
  intros Hbs Hi Hn.
  assert (i * bs + bs ≤ Z.of_nat (length l)) by nia.
  rewrite py_slice_inside by nia.
  rewrite length_take, length_drop. nia.
Qed.

Lemma filter_all `{∀ x, Decision (P x)} l :
  Forall P l → filter P l = l.
Proof.
  induction 1 as [|x l Hx _ IH]; [done|]. by rewrite filter_cons_True, IH.
Qed.

Lemma filter_none `{∀ x, Decision (P x)} l :
  Forall (λ x, ¬ P x) l → filter P l = [].
Proof.
  induction 1 as [|x l Hx _ IH]; [done|]. by rewrite filter_cons_False, IH.
Qed.
End Chunks.

(** ** [get_all_batches_shuffled] *)

Section Minibatches.
Context {row : Type} {RS : RandomState} {T32 : Float32 row}.
Implicit Types (b : ExperienceBuffer row) (x : Submission row).

(** The function changes the object in its generator only. *)
Lemma get_all_batches_shuffled_state b bs :
  (get_all_batches_shuffled b bs).2 = set_rng b (shuffled_indices b).2.
Proof.
  unfold get_all_batches_shuffled. by destruct (shuffled_indices b).
Qed.

(** With every index in range the five gathers succeed and the result
    is the split of the gathered tensors. *)
Lemma get_all_batches_shuffled_in_range b (N : nat) bs :
  holds b N → bs ≠ 0 →
  Forall (λ i, (i < N)%nat) (shuffled_indices b).1 →
  ∃ acts probs obs vals adv,
    index_select (actions b) (shuffled_indices b).1 = Ok acts ∧
    index_select (log_probs b) (shuffled_indices b).1 = Ok probs ∧
    index_select (states b) (shuffled_indices b).1 = Ok obs ∧
    index_select (values b) (shuffled_indices b).1 = Ok vals ∧
    index_select (advantages b) (shuffled_indices b).1 = Ok adv ∧
    length acts = length (shuffled_indices b).1 ∧
    length probs = length (shuffled_indices b).1 ∧
    length obs = length (shuffled_indices b).1 ∧
    length vals = length (shuffled_indices b).1 ∧
    length adv = length (shuffled_indices b).1 ∧
    (get_all_batches_shuffled b bs).1
    = Ok (split_batches bs (Z.of_nat (length acts) / bs) acts probs obs vals adv).
Proof.
  intros (Hr & Ha & Hp & Hs & Hv & Hd) Hbs Hidx.
  unfold get_all_batches_shuffled.
  destruct (shuffled_indices b) as [idx g] eqn:Hsh. simpl in *.
  destruct (index_select_in_range (actions b) idx) as (acts & Hacts & ?);
    [by rewrite Ha|].
  destruct (index_select_in_range (log_probs b) idx) as (probs & Hprobs & ?);
    [by rewrite Hp|].
  destruct (index_select_in_range (states b) idx) as (obs & Hobs & ?);
    [by rewrite Hs|].
  destruct (index_select_in_range (values b) idx) as (vals & Hvals & ?);
    [by rewrite Hv|].
  destruct (index_select_in_range (advantages b) idx) as (adv & Hadv & ?);
    [by rewrite Hd|].
  exists acts, probs, obs, vals, adv.
  rewrite Hacts, Hprobs, Hobs, Hvals, Hadv.
  destruct (Z.eqb_spec bs 0); [done|]. by repeat split.
Qed.

Context {Hshuffle : RandomStateShuffles RS}.

Lemma shuffled_indices_Permutation b :
  (shuffled_indices b).1 ≡ₚ seq 0 (length (rewards b)).
Proof. apply rng_shuffle_Permutation. Qed.

Lemma shuffled_indices_length b :
  length (shuffled_indices b).1 = length (rewards b).
Proof. by rewrite shuffled_indices_Permutation, length_seq. Qed.

Lemma shuffled_indices_NoDup b : NoDup (shuffled_indices b).1.
Proof. rewrite shuffled_indices_Permutation. apply NoDup_seq. Qed.

Lemma shuffled_indices_in_range b :
  Forall (λ i, (i < length (rewards b))%nat) (shuffled_indices b).1.
Proof.
  rewrite shuffled_indices_Permutation. apply Forall_seq. intros; lia.
Qed.

(** The index sets of the minibatches are a prefix of the shuffled
    indices. *)
Lemma batch_index_sets_concat b bs :
  0 < bs →
  concat (batch_index_sets b bs)
  = take (Z.to_nat (Z.of_nat (length (rewards b)) / bs) * Z.to_nat bs)
      (shuffled_indices b).1.
Proof.
  intros Hbs. unfold batch_index_sets. simpl.
  rewrite shuffled_indices_length.
  set (N := Z.of_nat (length (rewards b))).
  assert (0 ≤ N / bs) by (apply Z.div_pos; lia).
  pose proof (Z.mul_div_le N bs Hbs).
  rewrite <-(Z2Nat.id (N / bs)) at 1 by done.
  apply concat_py_slices; [done|].
  rewrite shuffled_indices_length. fold N. lia.
Qed.
(** The indices left out of every minibatch are as many as the
    remainder of the division. *)
Lemma batch_index_sets_remainder b bs :
  0 < bs →
  length (filter (λ i, i ∉ concat (batch_index_sets b bs))
            (seq 0 (length (rewards b))))
  = Z.to_nat (Z.of_nat (length (rewards b)) mod bs).
Proof.
  intros Hbs. rewrite batch_index_sets_concat by done.
  set (N := length (rewards b)).
  set (m := (Z.to_nat (Z.of_nat N / bs) * Z.to_nat bs)%nat).
  set (idx := (shuffled_indices b).1).
  assert (length idx = N) as Hlen by apply shuffled_indices_length.
  assert (NoDup idx) as Hnd by apply shuffled_indices_NoDup.
  assert (m ≤ N)%nat as Hm.
  { pose proof (Z.mul_div_le (Z.of_nat N) bs Hbs).
    assert (0 ≤ Z.of_nat N / bs) by (apply Z.div_pos; lia).
    unfold m. nia. }
  assert (idx ≡ₚ seq 0 N) as Hperm by apply shuffled_indices_Permutation.
  rewrite <-Hperm.
  rewrite <-(take_drop m idx) at 1.
  rewrite <-(take_drop m idx) in Hnd.
  apply NoDup_app in Hnd as (_ & Hdisj & _).
  rewrite filter_app, filter_none, filter_all.
  - simpl. rewrite length_drop, Hlen.
    pose proof (Z.div_mod (Z.of_nat N) bs ltac:(lia)).
    assert (0 ≤ Z.of_nat N / bs) by (apply Z.div_pos; lia).
    unfold m. nia.
  - apply Forall_forall. intros i Hi Hin. by apply (Hdisj i).
  - apply Forall_forall. intros i Hi Hin. by apply Hin.
Qed.

(** C3: for a buffer holding [N] transitions and [batch_size >= 1],
    [get_all_batches_shuffled] returns [N // batch_size] minibatches,
    each of exactly [batch_size] rows in each of its five tensors; the
    minibatches are the resident rows read at pairwise distinct
    indices below [N] (no index occurs in two minibatches or twice in
    one), and the indices that occur in no minibatch are
    [N mod batch_size] in number. *)
Theorem get_all_batches_shuffled_partition b (N : nat) (batch_size : Z) :
  holds b N → 1 ≤ batch_size →
  ∃ batches,
    (get_all_batches_shuffled b batch_size).1 = Ok batches ∧
    length batches = Z.to_nat (Z.of_nat N / batch_size) ∧
    Forall (λ m,
      length (batch_acts m) = Z.to_nat batch_size ∧
      length (batch_probs m) = Z.to_nat batch_size ∧
      length (batch_obs m) = Z.to_nat batch_size ∧
      length (batch_vals m) = Z.to_nat batch_size ∧
      length (batch_adv m) = Z.to_nat batch_size) batches ∧
    Forall2 (batch_at b) (batch_index_sets b batch_size) batches ∧
    NoDup (concat (batch_index_sets b batch_size)) ∧
    Forall (λ i, (i < N)%nat) (concat (batch_index_sets b batch_size)) ∧
    length (concat (batch_index_sets b batch_size))
    = (Z.to_nat (Z.of_nat N / batch_size) * Z.to_nat batch_size)%nat ∧
    length (filter (λ i, i ∉ concat (batch_index_sets b batch_size)) (seq 0 N))
    = Z.to_nat (Z.of_nat N mod batch_size).
Proof.
  intros Hholds Hbs.
  pose proof Hholds as (Hr & _).
  pose proof (shuffled_indices_in_range b) as Hin. rewrite Hr in Hin.
  pose proof (shuffled_indices_length b) as Hlen. rewrite Hr in Hlen.
  destruct (get_all_batches_shuffled_in_range b N batch_size)
    as (acts & probs & obs & vals & adv & Ha & Hp & Ho & Hv & Hd &
        La & Lp & Lo & Lv & Ld & Hres); [done|lia|done|].
  rewrite Hlen in La, Lp, Lo, Lv, Ld. rewrite La in Hres.
  set (n := Z.of_nat N / batch_size) in *.
  assert (0 ≤ n) as Hn by (apply Z.div_pos; lia).
  assert (n * batch_size ≤ Z.of_nat N) as Hfit
    by (pose proof (Z.mul_div_le (Z.of_nat N) batch_size); lia).
  eexists. split; [exact Hres|].
  split; [|split; [|split; [|split; [|split; [|split]]]]].
  - unfold split_batches, py_range. by rewrite !length_fmap, length_seq.
  - unfold split_batches. apply Forall_fmap, Forall_forall.
    intros i Hi%elem_of_py_range. simpl.
    repeat split; apply (py_slice_chunk_length _ _ _ n); lia.
  - unfold batch_index_sets, split_batches. simpl. rewrite Hlen. fold n.
    apply Forall2_fmap, Forall_Forall2_diag, Forall_forall.
    intros i _. unfold batch_at. simpl.
    repeat split; by apply index_select_py_slice.
  - rewrite batch_index_sets_concat by lia.
    apply (sublist_NoDup _ (shuffled_indices b).1);
      [apply shuffled_indices_NoDup|apply sublist_take].
  - rewrite batch_index_sets_concat by lia. by apply Forall_take.
  - rewrite batch_index_sets_concat, Hr by lia. fold n.
    rewrite length_take, Hlen. nia.
  - rewrite <-Hr. by apply batch_index_sets_remainder; lia.
Qed.

End Minibatches.

(** ** The example generator shuffles *)

Lemma list_swap_Permutation l i j : list_swap l i j ≡ₚ l.
Proof.
  unfold list_swap.
  destruct (l !! i) as [a|] eqn:Hi; [|done].
  destruct (l !! j) as [c|] eqn:Hj; [|done].
  by apply Permutation_insert_swap.
Qed.

Lemma fisher_yates_Permutation i g l : (fisher_yates i g l).1 ≡ₚ l.
Proof.
  revert g l. induction i as [|i IH]; intros g l; [done|].
  simpl. rewrite IH. apply list_swap_Permutation.
Qed.

Lemma lcg_shuffles : RandomStateShuffles lcg_RandomState.
Proof. intros g l. apply fisher_yates_Permutation. Qed.

(** Witness of [get_all_batches_shuffled_partition]: seven resident
    transitions and [batch_size = 3]. *)
Lemma get_all_batches_shuffled_partition_witness :
  RandomStateShuffles lcg_RandomState ∧ holds seven_of_10 7 ∧ 1 ≤ 3 ∧
  ∃ batches,
    (get_all_batches_shuffled seven_of_10 3).1 = Ok batches ∧
    length batches = 2%nat ∧
    NoDup (concat (batch_index_sets seven_of_10 3)) ∧
    length (filter (λ i, i ∉ concat (batch_index_sets seven_of_10 3)) (seq 0 7))
    = 1%nat.
Proof.
  split; [exact lcg_shuffles|].
  split; [by repeat split|].
  split; [lia|].
  destruct (get_all_batches_shuffled_partition (Hshuffle := lcg_shuffles)
              seven_of_10 7 3)
    as (batches & Hres & Hlen & _ & _ & Hnd & _ & _ & Hrem);
    [by repeat split|lia|].
  exists batches. repeat split; done.
Defined.

(** ** The eviction defect *)

(** C1: with capacity 1 and one matched submission of two transitions
    the eight trimmed sequences keep one row and [truncated] keeps two,
    so the nine resident sequences do not have one common length. *)
Theorem clamp_size_misaligns_truncated :
  matched (numbered 0 2) ∧
  aligned8 overfull_1 1 ∧
  length (truncated overfull_1) = 2%nat ∧
  ∀ n, ¬ aligned9 overfull_1 n.
Proof.
  split; [by repeat split|]. split; [by repeat split|]. split; [done|].
  intros n (_ & Ha & _ & _ & _ & _ & Ht & _). simpl in Ha, Ht. congruence.
Qed.

(** C2: capacity 500 and three matched submissions of 200 transitions.
    The eight trimmed sequences hold transitions 100 to 599 in order,
    but [truncated] holds all of 0 to 599: the resident rows are not
    the 500 most recent transitions. *)
Theorem scenario_500_truncated_keeps_all :
  Forall matched [numbered 0 200; numbered 200 200; numbered 400 200] ∧
  (∀ c, c ≠ ColTruncated → resident c scenario_500 = seq 100 500) ∧
  resident ColTruncated scenario_500 = seq 0 600 ∧
  resident ColTruncated scenario_500 ≠ seq 100 500.
Proof.
  split; [repeat constructor|].
  split; [intros c Hc; destruct c; try done; by vm_compute|].
  split; [by vm_compute|].
  intros H. apply (f_equal length) in H. vm_compute in H. discriminate.
Qed.

(** ** Determinism, [clear], and the frame of the shuffle *)

Section BufferRuns.
Context {row : Type} {RS : RandomState} {T32 : Float32 row}.
Implicit Types (b : ExperienceBuffer row) (x : Submission row).
Implicit Types (xs : list (Submission row)) (ops : list (BufferOp row)).

Lemma _clamp_size_set_device d b :
  _clamp_size (set_device d b) = set_device d (_clamp_size b).
Proof. unfold _clamp_size. simpl. by destruct (_ <? _). Qed.

Lemma submit_experience_set_device d b x :
  submit_experience (set_device d b) x = set_device d (submit_experience b x).
Proof. unfold submit_experience. by rewrite <-_clamp_size_set_device. Qed.

Lemma submit_all_set_device d b xs :
  submit_all (set_device d b) xs = set_device d (submit_all b xs).
Proof.
  revert b. induction xs as [|x xs IH]; intros b; [done|].
  simpl. by rewrite submit_experience_set_device, IH.
Qed.

Lemma get_all_batches_shuffled_set_device d b bs :
  (get_all_batches_shuffled (set_device d b) bs).1
  = (get_all_batches_shuffled b bs).1.
Proof.
  unfold get_all_batches_shuffled, shuffled_indices. simpl.
  by destruct (rng_shuffle _ _).
Qed.

(** The order of the shuffle depends on the seed and on the number of
    resident transitions only. *)
Lemma shuffled_indices_seed_and_count max_size0 seed0 device0 xs :
  (shuffled_indices (submit_all (__init__ max_size0 seed0 device0) xs)).1
  = (rng_shuffle (RandomState_seed seed0)
       (seq 0 (length (rewards (submit_all (__init__ max_size0 seed0 device0) xs))))).1.
Proof.
  unfold shuffled_indices.
  by destruct (submit_all_frame (__init__ max_size0 seed0 device0) xs)
    as (_ & _ & _ & ->).
Qed.

(** C4, with the capacity among what the two buffers share: two
    buffers constructed with the same seed that receive the same
    submissions shuffle the indices into the same order on their first
    [get_all_batches_shuffled] exactly when they hold the same number
    of transitions; constructed with the same capacity as well (on any
    storage targets) they do hold the same number, and they return the
    same minibatches. *)
Theorem same_seed_same_shuffle {Hshuffle : RandomStateShuffles RS}
    (max_size1 max_size2 seed0 : Z) (device1 device2 : string)
    xs (batch_size : Z) :
  ((shuffled_indices (submit_all (__init__ max_size1 seed0 device1) xs)).1
   = (shuffled_indices (submit_all (__init__ max_size2 seed0 device2) xs)).1
   ↔ length (rewards (submit_all (__init__ max_size1 seed0 device1) xs))
     = length (rewards (submit_all (__init__ max_size2 seed0 device2) xs))) ∧
  (max_size1 = max_size2 →
   (shuffled_indices (submit_all (__init__ max_size1 seed0 device1) xs)).1
   = (shuffled_indices (submit_all (__init__ max_size2 seed0 device2) xs)).1 ∧
   (get_all_batches_shuffled
      (submit_all (__init__ max_size1 seed0 device1) xs) batch_size).1
   = (get_all_batches_shuffled
        (submit_all (__init__ max_size2 seed0 device2) xs) batch_size).1).
Proof.
  split.
  - rewrite !shuffled_indices_seed_and_count. split.
    + intros Heq. apply (f_equal length) in Heq.
      by rewrite !rng_shuffle_Permutation, !length_seq in Heq.
    + by intros ->.
  - intros <-.
    change (__init__ max_size1 seed0 device2)
      with (set_device device2 (__init__ (row:=row) max_size1 seed0 device1)).
    rewrite submit_all_set_device, get_all_batches_shuffled_set_device.
    done.
Qed.

(** No operation changes the three constructor arguments kept in the
    object. *)
Lemma run_op_config b (op : BufferOp row) :
  max_size (run_op b op).2 = max_size b ∧ seed (run_op b op).2 = seed b ∧
  device (run_op b op).2 = device b.
Proof.
  destruct op as [x|bs|]; simpl.
  - by destruct (submit_experience_frame b x) as (->&->&->&_).
  - pose proof (get_all_batches_shuffled_state b bs) as H.
    destruct (get_all_batches_shuffled b bs) as [r b']. simpl in *. by subst.
  - done.
Qed.

Lemma run_ops_config b ops :
  max_size (run_ops b ops).2 = max_size b ∧ seed (run_ops b ops).2 = seed b ∧
  device (run_ops b ops).2 = device b.
Proof.
  revert b. induction ops as [|op ops IH]; intros b; [done|]. simpl.
  pose proof (run_op_config b op) as Hop.
  destruct (run_op b op) as [o b1]. specialize (IH b1).
  destruct (run_ops b1 ops) as [os b2]. simpl in *.
  destruct IH as (->&->&->). done.
Qed.

(** C5: after any run of submissions, shuffles and clears, [clear]
    gives the very object [__init__] builds from the same capacity,
    seed and storage target: the nine sequences are empty, the
    generator is seeded anew, and every further run of operations
    returns the same values and ends in the same state as on a new
    buffer. *)
Theorem clear_is_fresh (max_size0 seed0 : Z) (device0 : string) ops ops' :
  clear (run_ops (__init__ max_size0 seed0 device0) ops).2
  = __init__ max_size0 seed0 device0 ∧
  aligned9 (clear (run_ops (__init__ max_size0 seed0 device0) ops).2) 0 ∧
  run_ops (clear (run_ops (__init__ max_size0 seed0 device0) ops).2) ops'
  = run_ops (__init__ max_size0 seed0 device0) ops'.
Proof.
  assert (clear (run_ops (__init__ (row:=row) max_size0 seed0 device0) ops).2
          = __init__ max_size0 seed0 device0) as ->.
  { unfold clear.
    by destruct (run_ops_config (__init__ max_size0 seed0 device0) ops)
      as (->&->&->). }
  by repeat split.
Qed.

(** C10: [get_all_batches_shuffled] with [batch_size >= 1] leaves the
    nine resident sequences, the capacity, the seed and the storage
    target as they were; the generator is the one left by a single
    [shuffle] of the resident indices; and when [batch_size] exceeds
    the number of resident transitions (also for an empty buffer) the
    result is the empty list, not an exception. *)
Theorem get_all_batches_shuffled_frame {Hshuffle : RandomStateShuffles RS}
    b (batch_size : Z) :
  1 ≤ batch_size →
  (∀ c, resident c (get_all_batches_shuffled b batch_size).2 = resident c b) ∧
  max_size (get_all_batches_shuffled b batch_size).2 = max_size b ∧
  seed (get_all_batches_shuffled b batch_size).2 = seed b ∧
  device (get_all_batches_shuffled b batch_size).2 = device b ∧
  rng (get_all_batches_shuffled b batch_size).2
  = (rng_shuffle (rng b) (seq 0 (length (rewards b)))).2 ∧
  (∀ N : nat, holds b N → Z.of_nat N < batch_size →
     (get_all_batches_shuffled b batch_size).1 = Ok []).
Proof.
  intros Hbs. rewrite get_all_batches_shuffled_state.
  split; [by intros []|]. do 4 (split; [done|]).
  intros N Hholds HN.
  pose proof Hholds as (Hr & _).
  pose proof (shuffled_indices_in_range b) as Hin. rewrite Hr in Hin.
  pose proof (shuffled_indices_length b) as Hlen. rewrite Hr in Hlen.
  destruct (get_all_batches_shuffled_in_range b N batch_size)
    as (acts & probs & obs & vals & adv & _ & _ & _ & _ & _ &
        La & _ & _ & _ & _ & ->); [done|lia|done|].
  rewrite La, Hlen, Z.div_small by lia. done.
Qed.
End BufferRuns.

(** Witness of [same_seed_same_shuffle]: capacity 5 on two storage
    targets and one submission of seven transitions. *)
Lemma same_seed_same_shuffle_witness :
  RandomStateShuffles lcg_RandomState ∧ 5 = 5 ∧
  (shuffled_indices
     (submit_all (__init__ (RS := lcg_RandomState) 5 123 "cpu") [numbered 0 7])).1
  = (shuffled_indices
       (submit_all (__init__ (RS := lcg_RandomState) 5 123 "cuda:0")
          [numbered 0 7])).1 ∧
  (get_all_batches_shuffled
     (submit_all (__init__ (RS := lcg_RandomState) 5 123 "cpu") [numbered 0 7]) 2).1
  = (get_all_batches_shuffled
       (submit_all (__init__ (RS := lcg_RandomState) 5 123 "cuda:0")
          [numbered 0 7]) 2).1.
Proof.
  split; [exact lcg_shuffles|]. split; [reflexivity|].
  apply (same_seed_same_shuffle (Hshuffle := lcg_shuffles) 5 5 123 "cpu" "cuda:0"
           [numbered 0 7] 2).
  reflexivity.
Defined.

(** The claim C4 as stated fails when the two buffers differ in
    capacity: with seed 123 and the same submission of seven
    transitions, a buffer of capacity 5 shuffles five indices and a
    buffer of capacity 10 shuffles seven, so the two orders differ. *)
Lemma same_seed_different_capacity :
  seed (__init__ (row := nat) (RS := lcg_RandomState) 5 123 "cpu")
  = seed (__init__ (row := nat) (RS := lcg_RandomState) 10 123 "cpu") ∧
  length (shuffled_indices
            (submit_all (__init__ (RS := lcg_RandomState) 5 123 "cpu")
               [numbered 0 7])).1 = 5%nat ∧
  length (shuffled_indices
            (submit_all (__init__ (RS := lcg_RandomState) 10 123 "cpu")
               [numbered 0 7])).1 = 7%nat ∧
  (shuffled_indices
     (submit_all (__init__ (RS := lcg_RandomState) 5 123 "cpu") [numbered 0 7])).1
  ≠ (shuffled_indices
       (submit_all (__init__ (RS := lcg_RandomState) 10 123 "cpu")
          [numbered 0 7])).1.
Proof.
  split; [reflexivity|]. split; [by vm_compute|]. split; [by vm_compute|].
  intros H. apply (f_equal length) in H. vm_compute in H. discriminate.
Qed.

(** Witness of [get_all_batches_shuffled_frame]: an empty buffer and
    [batch_size = 1]. *)
Lemma get_all_batches_shuffled_frame_witness :
  RandomStateShuffles lcg_RandomState ∧ 1 ≤ 1 ∧
  holds (__init__ (row:=nat) (RS:=lcg_RandomState) 500 123 "cpu") 0 ∧
  (get_all_batches_shuffled
     (__init__ (row:=nat) (RS:=lcg_RandomState) 500 123 "cpu") 1).1 = Ok [].
Proof.
  split; [exact lcg_shuffles|]. split; [lia|]. split; [by repeat split|].
  destruct (get_all_batches_shuffled_frame (Hshuffle:=lcg_shuffles)
              (__init__ (row:=nat) (RS:=lcg_RandomState) 500 123 "cpu") 1)
    as (_ & _ & _ & _ & _ & Hempty); [lia|].
  apply (Hempty 0%nat); [by repeat split|lia].
Defined.

(** ** Checkpoints *)

Section Checkpoints.
Context {row : Type} {RS : RandomState} {T32 : Float32 row} {F : FloatOps}.
Context {agent_internals ppo_internals weights clock : Type}.
Context {C : Collaborators (row := row) (agent_internals := agent_internals)
               (ppo_internals := ppo_internals) (weights := weights) (clock := clock)}.
Implicit Types (l : Learner (row := row) (agent_internals := agent_internals)
                      (ppo_internals := ppo_internals)).
Implicit Types (d : gmap Z (CheckpointDir (F := F) (weights := weights))).
Implicit Types (m : Machine (row := row) (agent_internals := agent_internals)
                      (ppo_internals := ppo_internals) (weights := weights)
                      (clock := clock)).

(** [save] leaves both files in the directory it was asked to write. *)
Lemma save_to_folder_lookup l k d :
  save_to_folder l k d !! k
  = Some {| ppo_files := Some (ppo_save_to (ppo_learner l));
            book_keeping_file := Some (book_keeping_vars l) |}.
Proof. unfold save_to_folder. apply lookup_insert_eq. Qed.

(** Modelled from the spec: [from_json] undoes [to_json]. *)
Lemma from_json_to_json (s0 s : WelfordRunningStat (F := F)) :
  from_json s0 (to_json s) = s.
Proof. by destruct s. Qed.

(** C6: after [save(k)], [load] of directory [k] (by the same object
    or by a new one that finds the same folder) succeeds when the
    collaborator can read back its own files, and leaves
    [cumulative_timesteps], [epoch], [cumulative_model_updates] and
    the count, mean and variance accumulator of the running statistics
    equal to what they were when [save] ran. *)
Theorem save_load_roundtrip m m' (k : Z) (load_wandb : bool) (p : PPOLearner) :
  save_folder m' = save_folder (save k m) →
  ppo_load_from (ppo_learner (self m'))
    (Some (ppo_save_to (ppo_learner (self m)))) = (Ok tt, p) →
  ∃ wandb_loaded m'',
    load k load_wandb m' = (Ok wandb_loaded, m'') ∧
    cumulative_timesteps (agent (self m'')) = cumulative_timesteps (agent (self m)) ∧
    epoch (self m'') = epoch (self m) ∧
    cumulative_model_updates (ppo_learner (self m''))
    = cumulative_model_updates (ppo_learner (self m)) ∧
    ws_count (return_stats (self m'')) = ws_count (return_stats (self m)) ∧
    ws_mean (return_stats (self m'')) = ws_mean (return_stats (self m)) ∧
    ws_variance (return_stats (self m'')) = ws_variance (return_stats (self m)) ∧
    average_reward (agent (self m'')) = average_reward (agent (self m)).
Proof.
  intros Hfolder Hload.
  unfold load, mbind, Step_bind, step_bind, step_get. simpl.
  rewrite Hfolder. unfold save. simpl. rewrite save_to_folder_lookup. simpl.
  unfold load_from. rewrite Hload. simpl.
  destruct (wandb_run (self m)) as [run|], load_wandb; simpl;
    eexists _, _; (split; [reflexivity|]); simpl; by repeat split.
Qed.

(** *** Retention *)

(** Equality of two sets of names, element by element. *)
Ltac set_ext :=
  apply set_eq; intros ?;
  rewrite ?elem_of_union, ?elem_of_difference, ?elem_of_union,
    ?elem_of_singleton, ?elem_of_list_to_set, ?list_elem_of_singleton,
    ?elem_of_cons, ?elem_of_nil, ?elem_of_empty;
  intuition (subst; auto).

Lemma StronglySorted_lt_NoDup (s : list Z) : StronglySorted Z.lt s → NoDup s.
Proof.
  induction 1 as [|x s _ IH Hx]; constructor; [|done].
  intros Hin. rewrite Forall_forall in Hx. specialize (Hx _ Hin). lia.
Qed.

Lemma StronglySorted_lt_Sorted_le (s : list Z) :
  StronglySorted Z.lt s → Sorted Z.le s.
Proof.
  intros H. apply StronglySorted_Sorted.
  induction H as [|x s _ IH Hx]; constructor; [done|].
  eapply Forall_impl; [done|]. intros; simpl in *; lia.
Qed.

Lemma dom_makedirs k d : dom (makedirs k d) = {[k]} ∪ dom d.
Proof.
  unfold makedirs. destruct (d !! k) eqn:Hk.
  - assert (k ∈ dom d) by (apply elem_of_dom; eauto). set_ext.
  - apply dom_insert_L.
Qed.

Lemma dom_foldl_rmtree (ks : list Z) d :
  dom (foldl (λ d k, rmtree k d) d ks) = dom d ∖ list_to_set ks.
Proof.
  revert d. induction ks as [|k ks IH]; intros d; simpl.
  - set_ext.
  - rewrite IH. unfold rmtree. rewrite dom_delete_L. set_ext.
Qed.

(** Sorting the listing of a folder whose names are the strictly
    increasing [s] gives [s]. *)
Lemma merge_sort_listdir d (s : list Z) :
  dom d = list_to_set s → StronglySorted Z.lt s →
  merge_sort Z.le (listdir d) = s.
Proof.
  intros Hdom Hs. apply (Sorted_unique Z.le).
  - apply (Sorted_merge_sort Z.le).
  - by apply StronglySorted_lt_Sorted_le.
  - rewrite merge_sort_Permutation. unfold listdir. rewrite Hdom.
    apply elements_list_to_set. by apply StronglySorted_lt_NoDup.
Qed.

Lemma listdir_length d (s : list Z) :
  dom d = list_to_set s → StronglySorted Z.lt s →
  length (listdir d) = length s.
Proof.
  intros Hdom Hs. unfold listdir. rewrite Hdom.
  by rewrite elements_list_to_set by by apply StronglySorted_lt_NoDup.
Qed.

(** [x[:-keep]] for [keep >= 1] is all but the last [keep] entries. *)
Lemma py_slice_to_neg {A} (keep : Z) (x : list A) :
  1 ≤ keep → py_slice_to (- keep) x = take (length x - Z.to_nat keep) x.
Proof.
  intros Hk. unfold py_slice_to, py_clip.
  destruct (Z.ltb_spec (- keep) 0); [|lia]. f_equal. lia.
Qed.

Lemma list_to_set_drop_NoDup (n : nat) (s : list Z) :
  NoDup s →
  list_to_set s ∖ list_to_set (take n s) =@{gset Z} list_to_set (drop n s).
Proof.
  intros Hnd. rewrite <-(take_drop n s) in Hnd.
  apply NoDup_app in Hnd as (_ & Hdisj & _).
  rewrite <-(take_drop n s) at 1. rewrite list_to_set_app_L.
  apply set_eq. intros x.
  rewrite elem_of_difference, elem_of_union, !elem_of_list_to_set.
  specialize (Hdisj x). tauto.
Qed.

(** The retention step keeps the [keep] largest names. *)
Lemma dom_prune (keep : Z) d (s : list Z) :
  1 ≤ keep → dom d = list_to_set s → StronglySorted Z.lt s →
  dom (prune keep d) = list_to_set (last_n (Z.to_nat keep) s).
Proof.
  intros Hk Hdom Hs. unfold prune.
  rewrite (listdir_length d s), (merge_sort_listdir d s) by done.
  unfold last_n.
  destruct (Z.ltb_spec keep (Z.of_nat (length s))).
  - rewrite dom_foldl_rmtree, py_slice_to_neg, Hdom by done.
    by apply list_to_set_drop_NoDup, StronglySorted_lt_NoDup.
  - replace (length s - Z.to_nat keep)%nat with 0%nat by lia. done.
Qed.

Lemma last_n_snoc {A} (n : nat) (p : list A) (k : A) :
  (1 ≤ n)%nat →
  last_n n (p ++ [k]) = drop (length p + 1 - n) p ++ [k] ∧
  last_n n (last_n n p ++ [k]) = last_n n (p ++ [k]).
Proof.
  intros Hn. unfold last_n. rewrite !length_app, length_drop. simpl.
  split.
  - by rewrite drop_app_le by lia.
  - rewrite <-(drop_app_le p [k]) by lia. rewrite drop_drop. f_equal. lia.
Qed.

(** One [save] with a key above every name in the folder. *)
Lemma dom_save_to_folder l k d (p : list Z) :
  1 ≤ n_checkpoints_to_keep l →
  StronglySorted Z.lt (p ++ [k]) →
  dom d = list_to_set (last_n (Z.to_nat (n_checkpoints_to_keep l)) p) →
  dom (save_to_folder l k d)
  = list_to_set (last_n (Z.to_nat (n_checkpoints_to_keep l)) (p ++ [k])).
Proof.
  intros Hk Hs Hdom. set (n := Z.to_nat (n_checkpoints_to_keep l)) in *.
  assert (1 ≤ n)%nat as Hn by lia.
  destruct (last_n_snoc n p k Hn) as [Hsnoc Hidem].
  assert (StronglySorted Z.lt (last_n n p ++ [k])) as Hs'.
  { apply StronglySorted_app in Hs as (Hlt & Hp & Hk1).
    apply StronglySorted_app_2; [|by unfold last_n;
      apply (StronglySorted_app_1_r _ (take (length p - n) p)); rewrite take_drop|done].
    intros x1 x2 Hx1 Hx2. apply Hlt; [|done].
    unfold last_n in Hx1. by apply (subseteq_drop _ _ _ Hx1). }
  unfold save_to_folder.
  rewrite dom_insert_L, dom_makedirs.
  rewrite (dom_prune _ _ (last_n n p ++ [k])); [| done | | done].
  - fold n. rewrite Hidem, Hsnoc, list_to_set_app_L. set_ext.
  - rewrite dom_makedirs, Hdom, list_to_set_app_L. set_ext.
Qed.

(** C7, for a keep-count of at least one and keys saved in strictly
    increasing order into an empty folder: the directories that remain
    are the [K] most recently saved ones, which are the [K] largest
    names, and there are exactly [K] of them once more than [K] have
    been saved. *)
Theorem retention_keeps_most_recent (K : Z)
    (saves : list (Learner (row := row) (agent_internals := agent_internals)
                     (ppo_internals := ppo_internals) * Z)) :
  1 ≤ K →
  Forall (λ s, n_checkpoints_to_keep s.1 = K) saves →
  StronglySorted Z.lt saves.*2 →
  dom (save_all saves ∅) = list_to_set (last_n (Z.to_nat K) saves.*2) ∧
  size (save_all saves ∅) = Nat.min (Z.to_nat K) (length saves).
Proof.
  intros HK Hkeep Hsorted.
  assert (dom (save_all saves ∅) =@{gset Z} list_to_set (last_n (Z.to_nat K) saves.*2))
    as Hdom.
  { induction saves as [|[l k] saves IH] using rev_ind; [done|].
    apply Forall_app in Hkeep as [Hkeep Hl]. rewrite Forall_singleton in Hl.
    simpl in Hl. subst K.
    rewrite fmap_app in Hsorted |- *. simpl in *.
    unfold save_all. rewrite foldl_app. simpl.
    apply dom_save_to_folder; [done|done|].
    apply IH; [done|]. by apply StronglySorted_app_1_l in Hsorted. }
  split; [done|].
  rewrite <-size_dom, Hdom, size_list_to_set.
  - rewrite last_n_length, length_fmap. done.
  - apply (sublist_NoDup _ saves.*2);
      [by apply StronglySorted_lt_NoDup|apply sublist_drop].
Qed.

End Checkpoints.

(** Witness of [save_load_roundtrip]: the example learner at its third
    epoch saves checkpoint 6 and a new learner loads it. *)
Lemma save_load_roundtrip_witness :
  save_folder
    (with_save_folder
       (λ _, save_folder (save (C := ex_collaborators None) 6
                            (with_self (set_epoch 3) ex_machine)))
       ex_machine)
  = save_folder (save (C := ex_collaborators None) 6
                   (with_self (set_epoch 3) ex_machine)) ∧
  ex_ppo_load_from (ppo_learner ex_learner) (Some 0)
  = (Ok tt, ppo_learner ex_learner) ∧
  ∃ wandb_loaded m'',
    load (C := ex_collaborators None) 6 true
      (with_save_folder
         (λ _, save_folder (save (C := ex_collaborators None) 6
                              (with_self (set_epoch 3) ex_machine)))
         ex_machine)
    = (Ok wandb_loaded, m'') ∧
    epoch (self m'') = 3.
Proof.
  split; [reflexivity|]. split; [reflexivity|].
  destruct (save_load_roundtrip (C := ex_collaborators None)
              (with_self (set_epoch 3) ex_machine)
              (with_save_folder
                 (λ _, save_folder (save (C := ex_collaborators None) 6
                                      (with_self (set_epoch 3) ex_machine)))
                 ex_machine)
              6 true (ppo_learner ex_learner))
    as (wl & m'' & Hload & _ & Hepoch & _); [reflexivity|reflexivity|].
  exists wl, m''. split; [exact Hload|exact Hepoch].
Defined.

(** The claim C7 as stated fails when the keys are distinct but not
    increasing: with one checkpoint to keep, saving 10 and then 5
    leaves two directories.  The retention step removes directory 5,
    the smallest name, and [save] then creates it again. *)
Lemma retention_counterexample :
  n_checkpoints_to_keep ex_learner = 1 ∧
  NoDup [10; 5] ∧
  length [(ex_learner, 10); (ex_learner, 5)] = Z.to_nat (1 + 1) ∧
  elements (dom (save_all (C := ex_collaborators None)
                   [(ex_learner, 10); (ex_learner, 5)] ∅)) = [5; 10] ∧
  size (save_all (C := ex_collaborators None)
          [(ex_learner, 10); (ex_learner, 5)] ∅)
  ≠ Z.to_nat (n_checkpoints_to_keep ex_learner).
Proof.
  split; [done|].
  split; [apply NoDup_cons_2; [by intros [=]%list_elem_of_singleton|apply NoDup_singleton]|].
  split; [done|]. split; [by vm_compute|].
  vm_compute. discriminate.
Qed.

(** Witness of [retention_keeps_most_recent]: one checkpoint to keep and
    the keys 5, 10, 15. *)
Lemma retention_keeps_most_recent_witness :
  1 ≤ 1 ∧
  Forall (λ s, n_checkpoints_to_keep s.1 = 1)
    [(ex_learner, 5); (ex_learner, 10); (ex_learner, 15)] ∧
  StronglySorted Z.lt [(ex_learner, 5); (ex_learner, 10); (ex_learner, 15)].*2 ∧
  dom (save_all (C := ex_collaborators None)
         [(ex_learner, 5); (ex_learner, 10); (ex_learner, 15)] ∅)
  = list_to_set (last_n (Z.to_nat 1) [5; 10; 15]) ∧
  size (save_all (C := ex_collaborators None)
          [(ex_learner, 5); (ex_learner, 10); (ex_learner, 15)] ∅) = 1%nat.
Proof.
  split; [lia|]. split; [by repeat constructor|]. split; [by repeat constructor|].
  apply (retention_keeps_most_recent (C := ex_collaborators None) 1
           [(ex_learner, 5); (ex_learner, 10); (ex_learner, 15)]);
    [lia|by repeat constructor|by repeat constructor].
Defined.

(** ** The learning loop *)

Section LearnerLoop.
Context {row : Type} {RS : RandomState} {T32 : Float32 row} {F : FloatOps}.
Context {agent_internals ppo_internals weights clock : Type}.
Context {C : Collaborators (row := row) (agent_internals := agent_internals)
               (ppo_internals := ppo_internals) (weights := weights) (clock := clock)}.
Implicit Types (l : Learner (row := row) (agent_internals := agent_internals)
                      (ppo_internals := ppo_internals)).
Implicit Types (m : Machine (row := row) (agent_internals := agent_internals)
                      (ppo_internals := ppo_internals) (weights := weights)
                      (clock := clock)).
Implicit Types (ppo_report report : gmap string (Num (F := F))).

(** The eight keys written after the value-function loss differ from
    it. *)
Ltac key_neq := let H := fresh in intros H; vm_compute in H; discriminate H.

(** The "Value Function Loss" entry of an assembled report: [np.nan]
    before epoch 1 whatever the update reported, and the entry the
    update reported from epoch 1 on. *)
Lemma assemble_report_Value_Function_Loss l ppo_report (steps_collected : Z)
    (collection_time epoch_time : float) report :
  assemble_report l ppo_report steps_collected collection_time epoch_time
  = Ok report →
  (epoch l < 1 → report !! Value_Function_Loss = Some (PyFloat nan)) ∧
  (1 ≤ epoch l →
   report !! Value_Function_Loss = ppo_report !! Value_Function_Loss).
Proof.
  unfold assemble_report.
  destruct (fis_zero collection_time); [done|].
  destruct (fis_zero epoch_time); [done|].
  intros [= <-]. rewrite (right_id_L ∅ (∪)).
  split; intros He.
  - destruct (Z.ltb_spec (epoch l) 1); [|lia].
    destruct (average_reward (agent l));
      rewrite !lookup_insert_ne by key_neq; apply lookup_insert_eq.
  - destruct (Z.ltb_spec (epoch l) 1); [lia|].
    destruct (average_reward (agent l)); by rewrite !lookup_insert_ne by key_neq.
Qed.

(** The report is assembled when neither elapsed time is zero. *)
Lemma assemble_report_Ok l ppo_report (steps_collected : Z)
    (collection_time epoch_time : float) :
  fis_zero collection_time = false → fis_zero epoch_time = false →
  ∃ report,
    assemble_report l ppo_report steps_collected collection_time epoch_time
    = Ok report.
Proof.
  intros Hct Het. unfold assemble_report. rewrite Hct, Het. by eexists.
Qed.

(** The sink receives the assembled report as it is. *)
Lemma report_metrics_events report m :
  events (report_metrics report m).2
  = events m ++ [EvReport report (wandb_run (self m))].
Proof. unfold report_metrics. by destruct (report_metrics_raises report). Qed.

(** *** [cleanup] *)

Lemma cleanup_events_app m : events (cleanup m) = events m ++ cleanup_events m.
Proof.
  unfold cleanup, cleanup_events.
  destruct (wandb_run (self m)); simpl;
    destruct (is_BatchedAgentManager (agent (self m))); simpl;
    by rewrite ?app_nil_r, <-?app_assoc.
Qed.

Lemma cleanup_experience_buffer m :
  experience_buffer (self (cleanup m)) = clear (experience_buffer (self m)).
Proof.
  unfold cleanup.
  destruct (wandb_run (self m)); simpl;
    by destruct (is_BatchedAgentManager (agent (self m))).
Qed.

Lemma cleanup_agent m :
  agent (self (cleanup m))
  = if is_BatchedAgentManager (agent (self m))
    then agent_cleanup (agent (self m)) else agent (self m).
Proof.
  unfold cleanup.
  destruct (wandb_run (self m)); simpl;
    by destruct (is_BatchedAgentManager (agent (self m))).
Qed.

Lemma cleanup_empties_buffer m :
  aligned9 (experience_buffer (self (cleanup m))) 0.
Proof. rewrite cleanup_experience_buffer. by repeat split. Qed.

(** An exception leaves the loop from the epoch that raised it. *)
Lemma _learn_loop_Raise fuel m e m1 :
  _learn_loop fuel m = Some (Raise e, m1) →
  ∃ m0, _learn_epoch m0 = (Raise e, m1).
Proof.
  revert m. induction fuel as [|fuel IH]; intros m; simpl.
  - by destruct (_ <? _).
  - destruct (_ <? _); [|done].
    destruct (_learn_epoch m) as [[[]|e'] m'] eqn:Hepoch.
    + apply IH.
    + intros [= -> ->]. by exists m.
Qed.

(** The loop ends normally only at the timestep limit. *)
Lemma _learn_loop_Ok fuel m u m1 :
  _learn_loop fuel m = Some (Ok u, m1) →
  timestep_limit (self m1) ≤ cumulative_timesteps (agent (self m1)).
Proof.
  revert m. induction fuel as [|fuel IH]; intros m; simpl.
  - destruct (Z.ltb_spec (cumulative_timesteps (agent (self m)))
                (timestep_limit (self m))); [done|].
    by intros [= _ <-].
  - destruct (Z.ltb_spec (cumulative_timesteps (agent (self m)))
                (timestep_limit (self m))).
    + destruct (_learn_epoch m) as [[[]|e'] m']; [apply IH|done].
    + by intros [= _ <-].
Qed.

(** *** What an epoch dispatches *)

#[local] Abbreviation quiet_here :=
  (quiet (row := row) (RS := RS) (F := F) (agent_internals := agent_internals)
     (ppo_internals := ppo_internals) (weights := weights) (clock := clock)).

Lemma quiet_ret {A} (a : A) : quiet_here (step_ret a).
Proof. by intros m r m' [= <- <-]. Qed.

Lemma quiet_raise {A} e : quiet_here (step_raise (A := A) e).
Proof. by intros m r m' [= <- <-]. Qed.

Lemma quiet_of_result {A} (x : Result A) : quiet_here (step_of_result x).
Proof. by intros m r m' [= <- <-]. Qed.

Lemma quiet_get : quiet_here step_get.
Proof. by intros m r m' [= <- <-]. Qed.

Lemma quiet_do (f : Machine → Machine) :
  (∀ m, events (f m) = events m ∧ epoch (self (f m)) = epoch (self m) ∧
        wandb_run (self (f m)) = wandb_run (self m)) →
  quiet_here (step_do f).
Proof. intros Hf m r m' [= <- <-]. apply Hf. Qed.

Lemma quiet_bind {A B} (c : Step A) (k : A → Step B) :
  quiet_here c → (∀ a, quiet_here (k a)) → quiet_here (step_bind k c).
Proof.
  intros Hc Hk m r m'. unfold step_bind.
  destruct (c m) as [[a|e] m1] eqn:Hcm.
  - intros Hkm. destruct (Hc _ _ _ Hcm) as (E1 & E2 & E3).
    destruct (Hk a _ _ _ Hkm) as (E4 & E5 & E6).
    repeat split; congruence.
  - intros [= <- <-]. by apply (Hc _ _ _ Hcm).
Qed.

Lemma quiet_perf_counter_now : quiet perf_counter_now.
Proof.
  intros m r m'. unfold perf_counter_now.
  destruct (perf_counter (clock_now m)). by intros [= <- <-].
Qed.

Lemma quiet_collect : quiet collect.
Proof.
  intros m r m'. unfold collect.
  destruct (collect_timesteps _ _). by intros [= <- <-].
Qed.

Lemma quiet_update : quiet update.
Proof.
  intros m r m'. unfold update.
  destruct (ppo_learn _ _) as [[? ?] ?]. by intros [= <- <-].
Qed.

Lemma quiet_add_new_experience e : quiet (add_new_experience e).
Proof.
  unfold add_new_experience.
  apply quiet_bind; [apply quiet_get|intros m0].
  apply quiet_bind; [apply quiet_of_result|intros inp].
  apply quiet_bind; [apply quiet_of_result|intros val_preds].
  apply quiet_bind; [apply quiet_of_result|intros [[vt adv] ret]].
  apply quiet_bind; [by apply quiet_do|intros _].
  by apply quiet_do.
Qed.

Lemma quiet_checkpoint : quiet checkpoint.
Proof.
  unfold checkpoint. apply quiet_bind; [apply quiet_get|intros m0].
  destruct (_ =? 0); [apply quiet_raise|].
  destruct (_ =? 0); [by apply quiet_do|apply quiet_ret].
Qed.


(** More fuel does not change a run that ended. *)
Lemma _learn_loop_fuel fuel fuel' m x :
  (fuel ≤ fuel')%nat → _learn_loop fuel m = Some x → _learn_loop fuel' m = Some x.
Proof.
  revert fuel' m. induction fuel as [|fuel IH]; intros fuel' m Hle; simpl.
  - destruct fuel'; simpl; by destruct (_ <? _).
  - destruct fuel' as [|fuel']; [lia|]. simpl.
    destruct (_ <? _); [|done].
    destruct (_learn_epoch m) as [[[]|e] m1]; [|done].
    apply IH. lia.
Qed.

(** What follows the dispatch of a report adds nothing to the log. *)
Lemma report_and_checkpoint_events report m r m' :
  step_bind
    (λ _, step_bind (λ _, step_do (with_self (λ l, set_epoch (epoch l + 1) l)))
            checkpoint)
    (report_metrics report) m = (r, m') →
  events m' = events m ++ [EvReport report (wandb_run (self m))].
Proof.
  unfold step_bind.
  pose proof (report_metrics_events report m) as Evf.
  destruct (report_metrics report m) as [[u|e] mf]; simpl in Evf.
  - destruct (checkpoint mf) as [[u'|e'] mg] eqn:Hg;
      destruct (quiet_checkpoint _ _ _ Hg) as (Evg & _ & _);
      intros [= <- <-]; simpl; congruence.
  - intros [= <- <-]. done.
Qed.

(** C8: the mapping an epoch hands to the reporting sink.  An epoch
    dispatches nothing, or exactly one report, which is the one
    assembled from what the update of this epoch returned; its
    "Value Function Loss" entry is [np.nan] when the epoch number at
    the start is below 1, whatever the update reported, and is the
    entry the update reported (absent when it reported none) from
    epoch 1 on.  The report is dispatched whenever the steps before it
    return and neither elapsed time is zero. *)
Theorem value_function_loss_metric m (r : Result unit) m' :
  _learn_epoch m = (r, m') →
  (events m' = events m ∨
   ∃ t0 ma experience steps_collected collection_time mb mc ppo_report md t1 me
     report,
     perf_counter_now m = (Ok t0, ma) ∧
     collect ma = (Ok (experience, steps_collected, collection_time), mb) ∧
     add_new_experience experience mb = (Ok tt, mc) ∧
     update mc = (Ok ppo_report, md) ∧
     perf_counter_now md = (Ok t1, me) ∧
     events m' = events m ++ [EvReport report (wandb_run (self m))] ∧
     (epoch (self m) < 1 →
      report !! Value_Function_Loss = Some (PyFloat nan)) ∧
     (1 ≤ epoch (self m) →
      report !! Value_Function_Loss = ppo_report !! Value_Function_Loss)) ∧
  (∀ t0 ma experience steps_collected collection_time mb mc ppo_report md t1 me,
     perf_counter_now m = (Ok t0, ma) →
     collect ma = (Ok (experience, steps_collected, collection_time), mb) →
     add_new_experience experience mb = (Ok tt, mc) →
     update mc = (Ok ppo_report, md) →
     perf_counter_now md = (Ok t1, me) →
     fis_zero collection_time = false → fis_zero (fsub t1 t0) = false →
     ∃ report,
       events m' = events m ++ [EvReport report (wandb_run (self m))] ∧
       (epoch (self m) < 1 →
        report !! Value_Function_Loss = Some (PyFloat nan)) ∧
       (1 ≤ epoch (self m) →
        report !! Value_Function_Loss = ppo_report !! Value_Function_Loss)).
Proof.
  intros Hrun. split.
  - revert Hrun. unfold _learn_epoch, mbind, Step_bind. unfold step_bind at 1 2 3 4 5 6 7.
    destruct (perf_counter_now m) as [[t0|e0] ma] eqn:Ha;
      destruct (quiet_perf_counter_now _ _ _ Ha) as (Eva & Epa & Wa);
      [|intros [= <- <-]; by left].
    destruct (collect ma) as [[[[ex sc] ct]|e1] mb] eqn:Hb;
      destruct (quiet_collect _ _ _ Hb) as (Evb & Epb & Wb);
      [|intros [= <- <-]; left; congruence].
    destruct (add_new_experience ex mb) as [[[]|e2] mc] eqn:Hc;
      destruct (quiet_add_new_experience _ _ _ _ Hc) as (Evc & Epc & Wc);
      [|intros [= <- <-]; left; congruence].
    destruct (update mc) as [[ppo_report|e3] md] eqn:Hd;
      destruct (quiet_update _ _ _ Hd) as (Evd & Epd & Wd);
      [|intros [= <- <-]; left; congruence].
    destruct (perf_counter_now md) as [[t1|e4] me] eqn:He;
      destruct (quiet_perf_counter_now _ _ _ He) as (Eve & Epe & We);
      [|intros [= <- <-]; left; congruence].
    unfold step_get, step_of_result.
    destruct (assemble_report (self me) ppo_report sc ct (fsub t1 t0))
      as [report|e5] eqn:Hr; [|intros [= <- <-]; left; congruence].
    intros Htail%report_and_checkpoint_events. right.
    destruct (assemble_report_Value_Function_Loss _ _ _ _ _ _ Hr) as [H0 H1].
    exists t0, ma, ex, sc, ct, mb, mc, ppo_report, md, t1, me, report.
    assert (epoch (self me) = epoch (self m)) as Hep by congruence.
    rewrite Hep in H0, H1.
    repeat split; try done. rewrite Htail.
    assert (events me = events m) as -> by congruence.
    assert (wandb_run (self me) = wandb_run (self m)) as -> by congruence.
    done.
  - intros t0 ma ex sc ct mb mc ppo_report md t1 me Ha Hb Hc Hd He Hct Het.
    destruct (quiet_perf_counter_now _ _ _ Ha) as (Eva & Epa & Wa).
    destruct (quiet_collect _ _ _ Hb) as (Evb & Epb & Wb).
    destruct (quiet_add_new_experience _ _ _ _ Hc) as (Evc & Epc & Wc).
    destruct (quiet_update _ _ _ Hd) as (Evd & Epd & Wd).
    destruct (quiet_perf_counter_now _ _ _ He) as (Eve & Epe & We).
    destruct (assemble_report_Ok (self me) ppo_report sc ct (fsub t1 t0) Hct Het)
      as [report Hr].
    revert Hrun. unfold _learn_epoch, mbind, Step_bind. unfold step_bind at 1 2 3 4 5 6 7.
    rewrite Ha, Hb, Hc, Hd, He. unfold step_get, step_of_result. rewrite Hr.
    intros Htail%report_and_checkpoint_events.
    destruct (assemble_report_Value_Function_Loss _ _ _ _ _ _ Hr) as [H0 H1].
    assert (epoch (self me) = epoch (self m)) as Hep by congruence.
    rewrite Hep in H0, H1.
    exists report. repeat split; try done.
    rewrite Htail.
    assert (events me = events m) as -> by congruence.
    assert (wandb_run (self me) = wandb_run (self m)) as -> by congruence.
    done.
Qed.

(** *** The loop and its guard *)

(** The exception of a step is the exception of the iteration, and the
    object is as the step left it. *)
Lemma epoch_step_raises_learn_epoch m e m1 :
  epoch_step_raises m e m1 → _learn_epoch m = (Raise e, m1).
Proof.
  unfold _learn_epoch, mbind, Step_bind, step_bind, step_get, step_of_result.
  intros [t0 ma Ha Hb
         |t0 ma ex sc ct mb Ha Hb Hc
         |t0 ma ex sc ct mb mc Ha Hb Hc Hd
         |t0 ma ex sc ct mb mc ppo_report md t1 Ha Hb Hc Hd He Hr
         |t0 ma ex sc ct mb mc ppo_report md t1 me report Ha Hb Hc Hd He Hr Hf
         |t0 ma ex sc ct mb mc ppo_report md t1 me report mf
            Ha Hb Hc Hd He Hr Hf Hg];
    rewrite ?Ha, ?Hb, ?Hc, ?Hd, ?He, ?Hr, ?Hf, ?Hg; done.
Qed.

(** After [n] completed iterations the loop goes on from where they
    ended. *)
Lemma epochs_learn_loop (n : nat) m m0 (fuel : nat) :
  epochs n m = Some m0 → _learn_loop (n + fuel) m = _learn_loop fuel m0.
Proof.
  revert m. induction n as [|n IH]; intros m; simpl.
  - by intros [= ->].
  - destruct (_ <? _); [|done].
    destruct (_learn_epoch m) as [[[]|e] m']; [|done]. apply IH.
Qed.

(** C9, for what [except Exception] catches.  Let the loop of [_learn]
    have completed [n] iterations and stand at [m0].  When a step of
    the next iteration (collection, integration, update, report or
    checkpoint) raises [e] and leaves [m1], the loop ends there with
    [e] and with [m1], without running anything again; if [e] is an
    instance of [Exception], [learn] prints the banner and the
    traceback of [e], runs [cleanup] and returns normally; if it is
    not ([KeyboardInterrupt], [SystemExit]), [learn] runs [cleanup]
    and the exception propagates, unlogged.  When the timestep limit
    is reached at [m0] the loop ends normally, [cleanup] runs twice
    (at the end of [_learn] and in the [finally] clause) and [learn]
    returns normally.  In every case nothing else happens after the
    loop, and the buffer ends empty. *)
Theorem learn_guard (n : nat) m m0 :
  epochs n m = Some m0 →
  (∀ e m1 (fuel : nat),
     cumulative_timesteps (agent (self m0)) < timestep_limit (self m0) →
     epoch_step_raises m0 e m1 → (n < fuel)%nat →
     _learn_epoch m0 = (Raise e, m1) ∧
     _learn_loop fuel m = Some (Raise e, m1) ∧
     ∃ m2,
       aligned9 (experience_buffer (self m2)) 0 ∧
       if isinstance_Exception e then
         learn fuel m = Some (Ok tt, m2) ∧
         m2 = cleanup (emit [EvPrint error_banner; EvTraceback e] m1) ∧
         events m2
         = events m1 ++ [EvPrint error_banner; EvTraceback e] ++ cleanup_events m1
       else
         learn fuel m = Some (Raise e, m2) ∧
         m2 = cleanup m1 ∧
         events m2 = events m1 ++ cleanup_events m1) ∧
  (∀ fuel : nat,
     timestep_limit (self m0) ≤ cumulative_timesteps (agent (self m0)) →
     (n ≤ fuel)%nat →
     _learn_loop fuel m = Some (Ok tt, m0) ∧
     ∃ m2,
       aligned9 (experience_buffer (self m2)) 0 ∧
       learn fuel m = Some (Ok tt, m2) ∧
       m2 = cleanup (cleanup m0) ∧
       events m2 = events m0 ++ cleanup_events m0 ++ cleanup_events (cleanup m0)).
Proof.
  intros Hn. split.
  - intros e m1 fuel Hlt Hstep Hfuel.
    pose proof (epoch_step_raises_learn_epoch _ _ _ Hstep) as Hepoch.
    assert (_learn_loop fuel m = Some (Raise e, m1)) as Hloop.
    { replace fuel with (n + S (fuel - S n))%nat by lia.
      rewrite (epochs_learn_loop n m m0) by done. simpl.
      destruct (Z.ltb_spec (cumulative_timesteps (agent (self m0)))
                  (timestep_limit (self m0))); [|lia].
      by rewrite Hepoch. }
    split; [done|]. split; [done|].
    unfold learn, _learn. rewrite Hloop.
    destruct (isinstance_Exception e) eqn:He.
    + exists (cleanup (emit [EvPrint error_banner; EvTraceback e] m1)).
      split; [apply cleanup_empties_buffer|].
      split; [done|]. split; [done|].
      rewrite cleanup_events_app. simpl. by rewrite <-app_assoc.
    + exists (cleanup m1).
      split; [apply cleanup_empties_buffer|].
      split; [done|]. split; [done|]. apply cleanup_events_app.
  - intros fuel Hge Hfuel.
    assert (_learn_loop fuel m = Some (Ok tt, m0)) as Hloop.
    { replace fuel with (n + (fuel - n))%nat by lia.
      rewrite (epochs_learn_loop n m m0) by done.
      destruct (fuel - n)%nat; simpl;
        by destruct (Z.ltb_spec (cumulative_timesteps (agent (self m0)))
                       (timestep_limit (self m0))); [lia|]. }
    split; [done|].
    unfold learn, _learn. rewrite Hloop.
    exists (cleanup (cleanup m0)).
    split; [apply cleanup_empties_buffer|].
    split; [done|]. split; [done|].
    by rewrite !cleanup_events_app, <-app_assoc.
Qed.

End LearnerLoop.

(** A statement that ends with [r] leaves the pair of [r] and the
    object it leaves. *)
Lemma step_result_eq {A M} (x : Result A * M) (r : Result A) :
  x.1 = r → x = (r, x.2).
Proof. destruct x. simpl. by intros ->. Qed.

(** Witness of [value_function_loss_metric]: the example learner runs
    one epoch from epoch 0 and one from epoch 1; the update reports a
    loss of 0.25 in both. *)
Lemma value_function_loss_metric_witness :
  (∃ r m' report,
     _learn_epoch (C := ex_collaborators None) ex_machine = (r, m') ∧
     events m' = [EvReport report None] ∧
     report !! Value_Function_Loss = Some (PyFloat (F := ex_floats) ExNaN)) ∧
  (∃ r m' report,
     _learn_epoch (C := ex_collaborators None) (with_self (set_epoch 1) ex_machine)
     = (r, m') ∧
     events m' = [EvReport report None] ∧
     report !! Value_Function_Loss
     = Some (PyFloat (F := ex_floats) (ExMilli 250))).
Proof.
  split.
  - destruct (_learn_epoch (C := ex_collaborators None) ex_machine)
      as [r m'] eqn:Hrun.
    destruct (value_function_loss_metric (C := ex_collaborators None) _ _ _ Hrun)
      as [_ Hdispatched].
    edestruct Hdispatched as (report & Hev & H0 & _);
      [reflexivity|reflexivity|apply step_result_eq; vm_compute; reflexivity
      |reflexivity|reflexivity|reflexivity|reflexivity|].
    exists r, m', report. split; [reflexivity|]. split; [exact Hev|].
    apply H0. simpl. lia.
  - destruct (_learn_epoch (C := ex_collaborators None)
                (with_self (set_epoch 1) ex_machine))
      as [r m'] eqn:Hrun.
    destruct (value_function_loss_metric (C := ex_collaborators None) _ _ _ Hrun)
      as [_ Hdispatched].
    edestruct Hdispatched as (report & Hev & _ & H1);
      [reflexivity|reflexivity|apply step_result_eq; vm_compute; reflexivity
      |reflexivity|reflexivity|reflexivity|reflexivity|].
    exists r, m', report. split; [reflexivity|]. split; [exact Hev|].
    rewrite H1 by (simpl; lia). reflexivity.
Defined.

(** The claim C9 as stated fails for an exception outside the
    [Exception] hierarchy: when the collector raises
    [KeyboardInterrupt] in the first epoch, [learn] runs [cleanup] and
    raises [KeyboardInterrupt] to its caller; nothing is logged. *)
Lemma learn_reraises_KeyboardInterrupt :
  _learn_epoch (C := ex_collaborators (Some KeyboardInterrupt)) ex_machine
  = (Raise KeyboardInterrupt,
     @mkMachine nat lcg_RandomState ex_floats unit unit Z Z ex_learner ∅ 1 []) ∧
  isinstance_Exception KeyboardInterrupt = false ∧
  learn (C := ex_collaborators (Some KeyboardInterrupt)) 5 ex_machine
  = Some (Raise KeyboardInterrupt,
          @mkMachine nat lcg_RandomState ex_floats unit unit Z Z
            ex_learner ∅ 1 [EvAgentCleanup]).
Proof.
  split; [reflexivity|]. split; reflexivity.
Qed.

(** Witness of [learn_guard]: the collector raises an [Exception] in
    the first epoch. *)
Lemma learn_guard_witness :
  epochs (C := ex_collaborators (Some (OtherException "boom"))) 0 ex_machine
  = Some ex_machine ∧
  ∃ m1 m2,
    _learn_loop (C := ex_collaborators (Some (OtherException "boom"))) 5 ex_machine
    = Some (Raise (OtherException "boom"), m1) ∧
    learn (C := ex_collaborators (Some (OtherException "boom"))) 5 ex_machine
    = Some (Ok tt, m2) ∧
    events m2
    = [EvPrint error_banner; EvTraceback (OtherException "boom"); EvAgentCleanup].
Proof.
  split; [reflexivity|].
  destruct (learn_guard (C := ex_collaborators (Some (OtherException "boom")))
              0 ex_machine ex_machine eq_refl) as [Hraises _].
  destruct (Hraises (OtherException "boom")
              (@mkMachine nat lcg_RandomState ex_floats unit unit Z Z
                 ex_learner ∅ 1 [])
              5%nat)
    as (_ & Hloop & m2 & _ & Hguard).
  - simpl. lia.
  - eapply raises_collect; reflexivity.
  - lia.
  - simpl in Hguard. destruct Hguard as (Hlearn & _ & Hev).
    eexists _, m2. split; [exact Hloop|]. split; [exact Hlearn|exact Hev].
Defined.

(** * Further properties *)

(** ** The buffer as a bounded queue *)

Section BufferQueue.
Context {row : Type} {RS : RandomState} {T32 : Float32 row}.
Implicit Types (b : ExperienceBuffer row) (x : Submission row) (c : Column).
Implicit Types xs ys : list (Submission row).

Lemma Column_truncated_or_not c : c = ColTruncated ∨ c ≠ ColTruncated.
Proof. destruct c; (by left) || (by right). Qed.

(** FIFO bound for the eight sequences that [_clamp_size] trims: after
    matched submissions into a new buffer of capacity [max_size >= 0]
    each of them is exactly the [max_size] most recent rows sent to it,
    converted to single precision, in the order they were sent. *)
Theorem fifo_of_trimmed_sequences (max_size0 seed0 : Z) (device0 : string) xs c :
  0 ≤ max_size0 → Forall matched xs → c ≠ ColTruncated →
  resident c (submit_all (__init__ max_size0 seed0 device0) xs)
  = last_n (Z.to_nat max_size0) (as_tensor (all_submitted c xs)).
Proof. apply submit_all_fifo. Qed.

(** The eight trimmed sequences have one common length, the smaller of
    the capacity and the number of transitions submitted; it never
    exceeds the capacity. *)
Theorem trimmed_length_is_min (max_size0 seed0 : Z) (device0 : string) xs :
  0 ≤ max_size0 → Forall matched xs →
  aligned8 (submit_all (__init__ max_size0 seed0 device0) xs)
    (Nat.min (Z.to_nat max_size0) (length (all_submitted ColActions xs))) ∧
  Z.of_nat (length (actions (submit_all (__init__ max_size0 seed0 device0) xs)))
  ≤ max_size0.
Proof.
  intros Hmax Hxs.
  pose proof (submit_all_aligned8 max_size0 seed0 device0 xs Hmax Hxs) as Hal.
  split; [done|]. destruct Hal as (_ & -> & _). lia.
Qed.

(** [truncated] is never trimmed: whatever the capacity and whatever
    is submitted, it holds every row it was ever sent, converted to
    single precision, and so as many rows as were sent. *)
Theorem truncated_grows_without_bound (max_size0 seed0 : Z) (device0 : string) xs :
  truncated (submit_all (__init__ max_size0 seed0 device0) xs)
  = as_tensor (all_submitted ColTruncated xs) ∧
  length (truncated (submit_all (__init__ max_size0 seed0 device0) xs))
  = length (all_submitted ColTruncated xs).
Proof. by rewrite submit_all_truncated, as_tensor_length. Qed.

(** While the matched submissions fit the capacity nothing is evicted:
    each of the nine sequences is all that was sent to it, converted to
    single precision, and the nine have the same length. *)
Theorem submit_under_capacity (max_size0 seed0 : Z) (device0 : string) xs :
  Forall matched xs →
  Z.of_nat (length (all_submitted ColActions xs)) ≤ max_size0 →
  (∀ c, resident c (submit_all (__init__ max_size0 seed0 device0) xs)
        = as_tensor (all_submitted c xs)) ∧
  aligned9 (submit_all (__init__ max_size0 seed0 device0) xs)
    (length (all_submitted ColActions xs)).
Proof.
  intros Hxs Hfit.
  assert (∀ c, resident c (submit_all (__init__ max_size0 seed0 device0) xs)
               = as_tensor (all_submitted c xs)) as Hres.
  { intros c. destruct (Column_truncated_or_not c) as [->|Hc].
    - apply submit_all_truncated.
    - rewrite submit_all_fifo by (done || lia). unfold last_n.
      rewrite as_tensor_length, all_submitted_length by done.
      replace (_ - _)%nat with 0%nat by lia. done. }
  split; [done|]. apply aligned9_resident. intros c.
  by rewrite Hres, as_tensor_length, all_submitted_length.
Qed.

(** How the transitions are cut into submissions does not matter: two
    runs of matched submissions that send the same rows to every
    sequence leave the same nine resident sequences. *)
Theorem residents_independent_of_batching (max_size0 seed0 : Z) (device0 : string)
    xs ys :
  0 ≤ max_size0 → Forall matched xs → Forall matched ys →
  (∀ c, all_submitted c xs = all_submitted c ys) →
  ∀ c, resident c (submit_all (__init__ max_size0 seed0 device0) xs)
       = resident c (submit_all (__init__ max_size0 seed0 device0) ys).
Proof.
  intros Hmax Hxs Hys Hsame c. destruct (Column_truncated_or_not c) as [->|Hc].
  - simpl. by rewrite !submit_all_truncated, Hsame.
  - by rewrite !submit_all_fifo, Hsame.
Qed.

(** A buffer built with a capacity of zero or less keeps no row in its
    eight trimmed sequences, whatever is submitted. *)
Theorem nonpositive_capacity_keeps_nothing (max_size0 seed0 : Z) (device0 : string)
    xs c :
  max_size0 ≤ 0 → Forall matched xs → c ≠ ColTruncated →
  resident c (submit_all (__init__ max_size0 seed0 device0) xs) = [].
Proof.
  intros Hmax Hxs Hc. revert c Hc.
  induction xs as [|x xs IH] using rev_ind; intros c Hc; [by destruct c|].
  apply Forall_app in Hxs as [Hxs Hx]. rewrite Forall_singleton in Hx.
  rewrite submit_all_snoc, submit_experience_resident by done.
  destruct (submit_all_frame (__init__ max_size0 seed0 device0) xs) as (->&_).
  rewrite IH by done.
  assert (actions (submit_all (__init__ max_size0 seed0 device0) xs) = []) as ->
    by (by apply (IH Hxs ColActions)).
  simpl. apply drop_ge.
  rewrite !as_tensor_length, (matched_submitted x c Hx). lia.
Qed.
End BufferQueue.

Lemma fifo_of_trimmed_sequences_witness :
  0 ≤ 5 ∧ Forall matched two_submissions ∧ ColRewards ≠ ColTruncated ∧
  resident ColRewards
    (submit_all (__init__ (RS := lcg_RandomState) 5 1 "cpu") two_submissions)
  = last_n (Z.to_nat 5) (as_tensor (all_submitted ColRewards two_submissions)).
Proof.
  split; [lia|]. split; [by repeat constructor|]. split; [done|].
  apply (fifo_of_trimmed_sequences (RS := lcg_RandomState) 5 1 "cpu");
    [lia|by repeat constructor|done].
Defined.

Lemma trimmed_length_is_min_witness :
  0 ≤ 5 ∧ Forall matched two_submissions ∧
  aligned8 (submit_all (__init__ (RS := lcg_RandomState) 5 1 "cpu") two_submissions)
    (Nat.min (Z.to_nat 5) (length (all_submitted ColActions two_submissions))) ∧
  Z.of_nat (length (actions (submit_all (__init__ (RS := lcg_RandomState) 5 1 "cpu")
                               two_submissions))) ≤ 5.
Proof.
  split; [lia|]. split; [by repeat constructor|].
  apply (trimmed_length_is_min (RS := lcg_RandomState) 5 1 "cpu");
    [lia|by repeat constructor].
Defined.

Lemma submit_under_capacity_witness :
  Forall matched two_submissions ∧
  Z.of_nat (length (all_submitted ColActions two_submissions)) ≤ 7 ∧
  aligned9 (submit_all (__init__ (RS := lcg_RandomState) 7 1 "cpu") two_submissions)
    (length (all_submitted ColActions two_submissions)).
Proof.
  split; [by repeat constructor|]. split; [simpl; lia|].
  apply (submit_under_capacity (RS := lcg_RandomState) 7 1 "cpu");
    [by repeat constructor|simpl; lia].
Defined.

Lemma residents_independent_of_batching_witness :
  0 ≤ 5 ∧ Forall matched two_submissions ∧ Forall matched one_submission ∧
  (∀ c, all_submitted c two_submissions = all_submitted c one_submission) ∧
  resident ColStates
    (submit_all (__init__ (RS := lcg_RandomState) 5 1 "cpu") two_submissions)
  = resident ColStates
      (submit_all (__init__ (RS := lcg_RandomState) 5 1 "cpu") one_submission).
Proof.
  split; [lia|]. split; [by repeat constructor|]. split; [by repeat constructor|].
  split; [by intros []|].
  apply (residents_independent_of_batching (RS := lcg_RandomState) 5 1 "cpu");
    [lia|by repeat constructor|by repeat constructor|by intros []].
Defined.

Lemma nonpositive_capacity_keeps_nothing_witness :
  -1 ≤ 0 ∧ Forall matched two_submissions ∧ ColValues ≠ ColTruncated ∧
  resident ColValues
    (submit_all (__init__ (RS := lcg_RandomState) (-1) 1 "cpu") two_submissions)
  = [].
Proof.
  split; [lia|]. split; [by repeat constructor|]. split; [done|].
  apply (nonpositive_capacity_keeps_nothing (RS := lcg_RandomState) (-1) 1 "cpu");
    [lia|by repeat constructor|done].
Defined.

(** ** Errors and edge cases of [get_all_batches_shuffled] *)

Section IndexSelect.
Context {A : Type}.
Implicit Types (t r : list A) (idx : list nat).

(** A gather can fail with [IndexError] only. *)
Lemma index_select_cases t idx :
  (∃ r, index_select t idx = Ok r) ∨ index_select t idx = Raise IndexError.
Proof. unfold index_select. destruct (mapM _ idx); eauto. Qed.

Lemma index_select_out_of_range t idx i :
  i ∈ idx → (length t ≤ i)%nat → index_select t idx = Raise IndexError.
Proof.
  intros Hi Hlen. unfold index_select.
  destruct (mapM (λ i, t !! i) idx) as [r|] eqn:Hr; [|done].
  assert (is_Some (mapM (λ i, t !! i) idx)) as Hsome by eauto.
  apply mapM_is_Some in Hsome. rewrite Forall_forall in Hsome.
  destruct (Hsome i Hi) as [x Hx]. simpl in Hx.
  apply lookup_lt_Some in Hx. lia.
Qed.

Lemma omap_lookup_shift x t (l : list nat) :
  omap (λ i, (x :: t) !! i) (S <$> l) = omap (λ i, t !! i) l.
Proof. induction l as [|i l IH]; [done|]. csimpl. by rewrite IH. Qed.

Lemma omap_lookup_seq t : omap (λ i, t !! i) (seq 0 (length t)) = t.
Proof.
  induction t as [|x t IH]; [done|].
  change (seq 0 (length (x :: t))) with (0%nat :: seq 1 (length t)).
  rewrite <-fmap_S_seq. csimpl. by rewrite omap_lookup_shift, IH.
Qed.

Lemma mapM_Some_omap {B} (f : nat → option B) idx (r : list B) :
  mapM f idx = Some r → omap f idx = r.
Proof.
  intros H. apply mapM_Some in H.
  induction H as [|i x idx r Hix _ IH]; [done|]. csimpl. by rewrite Hix, IH.
Qed.

(** Gathering at a permutation of all indices permutes the tensor. *)
Lemma index_select_Permutation t idx r :
  index_select t idx = Ok r → idx ≡ₚ seq 0 (length t) → r ≡ₚ t.
Proof.
  unfold index_select.
  destruct (mapM (λ i, t !! i) idx) as [r'|] eqn:Hr; [|done].
  intros [= <-] Hperm. apply mapM_Some_omap in Hr. subst r'.
  rewrite Hperm. by rewrite omap_lookup_seq.
Qed.
End IndexSelect.

Section ShuffleEdges.
Context {row : Type} {RS : RandomState} {T32 : Float32 row} {Hshuffle : RandomStateShuffles RS}.
Implicit Types (b : ExperienceBuffer row).

Lemma gathers_succeed b (N : nat) :
  holds b N →
  ∃ acts probs obs vals adv,
    index_select (actions b) (shuffled_indices b).1 = Ok acts ∧
    index_select (log_probs b) (shuffled_indices b).1 = Ok probs ∧
    index_select (states b) (shuffled_indices b).1 = Ok obs ∧
    index_select (values b) (shuffled_indices b).1 = Ok vals ∧
    index_select (advantages b) (shuffled_indices b).1 = Ok adv ∧
    length acts = N ∧ length probs = N ∧ length obs = N ∧
    length vals = N ∧ length adv = N.
Proof.
  intros Hholds. pose proof Hholds as (Hr & _).
  pose proof (shuffled_indices_in_range b) as Hin. rewrite Hr in Hin.
  pose proof (shuffled_indices_length b) as Hlen. rewrite Hr in Hlen.
  destruct (get_all_batches_shuffled_in_range b N 1 Hholds ltac:(lia) Hin)
    as (acts & probs & obs & vals & adv & Ha & Hp & Ho & Hv & Hd &
        La & Lp & Lo & Lv & Ld & _).
  exists acts, probs, obs, vals, adv. rewrite Hlen in *. by repeat split.
Qed.

(** [batch_size = 0] on an aligned buffer: the shuffle and the five
    gathers happen first, then [len(acts) // 0] raises
    [ZeroDivisionError]; the generator has advanced all the same. *)
Theorem zero_batch_size_raises b (N : nat) :
  holds b N →
  (get_all_batches_shuffled b 0).1 = Raise ZeroDivisionError ∧
  rng (get_all_batches_shuffled b 0).2
  = (rng_shuffle (rng b) (seq 0 (length (rewards b)))).2.
Proof.
  intros Hholds. split; [|by rewrite get_all_batches_shuffled_state].
  destruct (gathers_succeed b N Hholds)
    as (acts & probs & obs & vals & adv & Ha & Hp & Ho & Hv & Hd & _).
  unfold get_all_batches_shuffled.
  destruct (shuffled_indices b) as [idx g]. simpl in *.
  by rewrite Ha, Hp, Ho, Hv, Hd.
Qed.

(** A negative [batch_size] gives no minibatch and no error:
    [len(acts) // batch_size] is then zero or negative and the loop
    body never runs. *)
Theorem negative_batch_size_returns_nothing b (N : nat) (batch_size : Z) :
  holds b N → batch_size < 0 →
  (get_all_batches_shuffled b batch_size).1 = Ok [].
Proof.
  intros Hholds Hbs. pose proof Hholds as (Hr & _).
  pose proof (shuffled_indices_in_range b) as Hin. rewrite Hr in Hin.
  destruct (get_all_batches_shuffled_in_range b N batch_size Hholds ltac:(lia) Hin)
    as (acts & probs & obs & vals & adv & _ & _ & _ & _ & _ &
        La & _ & _ & _ & _ & ->).
  unfold split_batches, py_range.
  assert (Z.of_nat (length acts) / batch_size ≤ 0) as Hn.
  { pose proof (Z.div_mod (Z.of_nat (length acts)) batch_size ltac:(lia)).
    pose proof (Z.mod_neg_bound (Z.of_nat (length acts)) batch_size Hbs). nia. }
  by replace (Z.to_nat (Z.of_nat (length acts) / batch_size)) with 0%nat by lia.
Qed.

(** The buffer checks no lengths when experience is submitted; a
    mismatch shows here.  When one of the five emitted tensors is
    shorter than [rewards], the gather of the shuffled indices raises
    [IndexError], whatever the batch size. *)
Theorem short_tensor_raises_IndexError b (batch_size : Z) :
  (length (actions b) < length (rewards b) ∨
   length (log_probs b) < length (rewards b) ∨
   length (states b) < length (rewards b) ∨
   length (values b) < length (rewards b) ∨
   length (advantages b) < length (rewards b))%nat →
  (get_all_batches_shuffled b batch_size).1 = Raise IndexError.
Proof.
  intros Hshort.
  assert (∀ t : list row, (length t < length (rewards b))%nat →
            index_select t (shuffled_indices b).1 = Raise IndexError) as Hraise.
  { intros t Ht.
    apply (index_select_out_of_range _ _ (length (rewards b) - 1)); [|lia].
    rewrite shuffled_indices_Permutation. apply elem_of_seq. lia. }
  unfold get_all_batches_shuffled.
  destruct (shuffled_indices b) as [idx g]. simpl in *.
  destruct (index_select_cases (actions b) idx) as [[acts Ha]|Ha];
    rewrite Ha; [|done].
  destruct (index_select_cases (log_probs b) idx) as [[probs Hp]|Hp];
    rewrite Hp; [|done].
  destruct (index_select_cases (states b) idx) as [[obs Ho]|Ho];
    rewrite Ho; [|done].
  destruct (index_select_cases (values b) idx) as [[vals Hv]|Hv];
    rewrite Hv; [|done].
  destruct (index_select_cases (advantages b) idx) as [[adv Hd]|Hd];
    rewrite Hd; [|done].
  destruct Hshort as [H|[H|[H|[H|H]]]]; apply Hraise in H; congruence.
Qed.

(** When [batch_size] divides the number of resident transitions the
    minibatches leave nothing out: for each of the five emitted
    sequences the minibatches laid end to end are a permutation of the
    resident sequence. *)
Theorem batches_cover_buffer b (N : nat) (batch_size : Z) :
  holds b N → 1 ≤ batch_size → Z.of_nat N mod batch_size = 0 →
  ∃ batches,
    (get_all_batches_shuffled b batch_size).1 = Ok batches ∧
    concat (batch_acts <$> batches) ≡ₚ actions b ∧
    concat (batch_probs <$> batches) ≡ₚ log_probs b ∧
    concat (batch_obs <$> batches) ≡ₚ states b ∧
    concat (batch_vals <$> batches) ≡ₚ values b ∧
    concat (batch_adv <$> batches) ≡ₚ advantages b.
Proof.
  intros Hholds Hbs Hdiv.
  pose proof Hholds as (Hr & Hla & Hlp & Hls & Hlv & Hld).
  pose proof (shuffled_indices_in_range b) as Hin. rewrite Hr in Hin.
  pose proof (shuffled_indices_Permutation b) as Hperm. rewrite Hr in Hperm.
  destruct (get_all_batches_shuffled_in_range b N batch_size Hholds ltac:(lia) Hin)
    as (acts & probs & obs & vals & adv & Ha & Hp & Ho & Hv & Hd &
        La & Lp & Lo & Lv & Ld & Hres).
  rewrite Hperm, length_seq in La, Lp, Lo, Lv, Ld. rewrite La in Hres.
  set (n := Z.of_nat N / batch_size) in *.
  assert (0 ≤ n) as Hn by (apply Z.div_pos; lia).
  assert (n * batch_size = Z.of_nat N) as Hfit.
  { pose proof (Z.div_mod (Z.of_nat N) batch_size ltac:(lia)). unfold n. lia. }
  assert (∀ l : list row, length l = N →
            concat ((λ i, py_slice (i * batch_size) (i * batch_size + batch_size) l)
                    <$> py_range n) = l) as Hcat.
  { intros l Hl. rewrite <-(Z2Nat.id n) at 1 by done.
    rewrite concat_py_slices by lia. apply take_ge. nia. }
  eexists. split; [exact Hres|]. unfold split_batches.
  rewrite <-!list_fmap_compose. unfold compose. simpl.
  rewrite !Hcat by done.
  repeat split.
  - apply (index_select_Permutation _ _ _ Ha). by rewrite Hla.
  - apply (index_select_Permutation _ _ _ Hp). by rewrite Hlp.
  - apply (index_select_Permutation _ _ _ Ho). by rewrite Hls.
  - apply (index_select_Permutation _ _ _ Hv). by rewrite Hlv.
  - apply (index_select_Permutation _ _ _ Hd). by rewrite Hld.
Qed.
End ShuffleEdges.

Lemma zero_batch_size_raises_witness :
  RandomStateShuffles lcg_RandomState ∧ holds six_of_10 6 ∧
  (get_all_batches_shuffled six_of_10 0).1 = Raise ZeroDivisionError.
Proof.
  split; [exact lcg_shuffles|]. split; [by repeat split|].
  apply (zero_batch_size_raises (Hshuffle := lcg_shuffles) six_of_10 6).
  by repeat split.
Defined.

Lemma negative_batch_size_returns_nothing_witness :
  RandomStateShuffles lcg_RandomState ∧ holds six_of_10 6 ∧ -4 < 0 ∧
  (get_all_batches_shuffled six_of_10 (-4)).1 = Ok [].
Proof.
  split; [exact lcg_shuffles|]. split; [by repeat split|]. split; [lia|].
  apply (negative_batch_size_returns_nothing (Hshuffle := lcg_shuffles) six_of_10 6);
    [by repeat split|lia].
Defined.

Lemma short_tensor_raises_IndexError_witness :
  RandomStateShuffles lcg_RandomState ∧
  (length (actions short_actions) < length (rewards short_actions))%nat ∧
  (get_all_batches_shuffled short_actions 1).1 = Raise IndexError.
Proof.
  split; [exact lcg_shuffles|]. split; [simpl; lia|].
  apply (short_tensor_raises_IndexError (Hshuffle := lcg_shuffles) short_actions 1).
  left. simpl. lia.
Defined.

Lemma batches_cover_buffer_witness :
  RandomStateShuffles lcg_RandomState ∧ holds six_of_10 6 ∧ 1 ≤ 3 ∧
  Z.of_nat 6 mod 3 = 0 ∧
  ∃ batches,
    (get_all_batches_shuffled six_of_10 3).1 = Ok batches ∧
    concat (batch_acts <$> batches) ≡ₚ actions six_of_10.
Proof.
  split; [exact lcg_shuffles|]. split; [by repeat split|]. split; [lia|].
  split; [reflexivity|].
  destruct (batches_cover_buffer (Hshuffle := lcg_shuffles) six_of_10 6 3)
    as (batches & Hres & Hacts & _); [by repeat split|lia|reflexivity|].
  exists batches. split; [exact Hres|exact Hacts].
Defined.

(** ** [save] on an arbitrary folder *)

Section SaveAnywhere.
Context {row : Type} {RS : RandomState} {T32 : Float32 row} {F : FloatOps}.
Context {agent_internals ppo_internals weights clock : Type}.
Context {C : Collaborators (row := row) (agent_internals := agent_internals)
               (ppo_internals := ppo_internals) (weights := weights) (clock := clock)}.
Implicit Types (l : Learner (row := row) (agent_internals := agent_internals)
                      (ppo_internals := ppo_internals)).
Implicit Types (d : gmap Z (CheckpointDir (F := F) (weights := weights))).

Lemma Sorted_le_NoDup_lt (s : list Z) :
  Sorted Z.le s → NoDup s → StronglySorted Z.lt s.
Proof.
  intros Hs Hnd. apply (Sorted_StronglySorted Z.le) in Hs.
  induction Hs as [|x s Hs IH Hx]; [constructor|].
  apply NoDup_cons in Hnd as [Hx' Hnd]. constructor; [by apply IH|].
  rewrite Forall_forall in Hx |- *. intros y Hy.
  specialize (Hx y Hy). assert (x ≠ y) by (by intros ->). lia.
Qed.

(** The sorted listing of a folder is strictly increasing and names
    exactly the directories of the folder. *)
Lemma sorted_listdir d :
  StronglySorted Z.lt (merge_sort Z.le (listdir d)) ∧
  dom d = list_to_set (merge_sort Z.le (listdir d)).
Proof.
  split.
  - apply Sorted_le_NoDup_lt; [apply (Sorted_merge_sort Z.le)|].
    rewrite merge_sort_Permutation. apply NoDup_elements.
  - apply set_eq. intros x.
    rewrite elem_of_list_to_set, merge_sort_Permutation.
    unfold listdir. by rewrite elem_of_elements.
Qed.

Lemma lookup_makedirs_ne k j d : j ≠ k → makedirs k d !! j = d !! j.
Proof.
  intros Hj. unfold makedirs. destruct (d !! k); [done|].
  by rewrite lookup_insert_ne.
Qed.

Lemma lookup_foldl_rmtree (ks : list Z) d j :
  foldl (λ d k, rmtree k d) d ks !! j = d !! j ∨
  foldl (λ d k, rmtree k d) d ks !! j = None.
Proof.
  revert d. induction ks as [|k ks IH]; intros d; simpl; [by left|].
  destruct (IH (rmtree k d)) as [->| ->]; [|by right].
  unfold rmtree. destruct (decide (j = k)) as [->|Hj].
  - right. apply lookup_delete_eq.
  - left. by apply lookup_delete_ne.
Qed.

Lemma lookup_prune keep d j : prune keep d !! j = d !! j ∨ prune keep d !! j = None.
Proof. unfold prune. destruct (_ <? _); [apply lookup_foldl_rmtree|by left]. Qed.

(** Retention for any folder and any key, with a keep-count of at
    least one: after [save(k)] the folder holds directory [k] and the
    [K] largest of the names it held together with [k], and never more
    than [K + 1] directories. *)
Theorem save_keeps_largest l (k : Z) d :
  1 ≤ n_checkpoints_to_keep l →
  dom (save_to_folder l k d)
  = {[k]} ∪ list_to_set
              (last_n (Z.to_nat (n_checkpoints_to_keep l))
                 (merge_sort Z.le (listdir (makedirs k d)))) ∧
  (size (save_to_folder l k d) ≤ Z.to_nat (n_checkpoints_to_keep l) + 1)%nat.
Proof.
  intros HK.
  destruct (sorted_listdir (makedirs k d)) as [Hsorted Hdom].
  set (s := merge_sort Z.le (listdir (makedirs k d))) in *.
  assert (dom (save_to_folder l k d)
          =@{gset Z} {[k]} ∪ list_to_set (last_n (Z.to_nat (n_checkpoints_to_keep l)) s))
    as Hsave.
  { unfold save_to_folder.
    rewrite dom_insert_L, dom_makedirs, (dom_prune _ _ s) by done.
    apply set_eq. intros x. rewrite !elem_of_union. tauto. }
  split; [done|].
  rewrite <-size_dom, Hsave, size_union_alt, size_singleton.
  assert (size (list_to_set (C := gset Z)
                  (last_n (Z.to_nat (n_checkpoints_to_keep l)) s) ∖ {[k]})
          ≤ Z.to_nat (n_checkpoints_to_keep l))%nat; [|lia].
  etrans; [apply subseteq_size, subseteq_difference_l; reflexivity|].
  rewrite size_list_to_set.
  - rewrite last_n_length. lia.
  - apply (sublist_NoDup _ s);
      [by apply StronglySorted_lt_NoDup|apply sublist_drop].
Qed.

(** [save] never rewrites another checkpoint: every directory other
    than the one being saved is either left exactly as it was or
    removed as a whole, whatever the keep-count. *)
Theorem save_leaves_others_alone l (k j : Z) d :
  j ≠ k →
  save_to_folder l k d !! j = d !! j ∨ save_to_folder l k d !! j = None.
Proof.
  intros Hj. unfold save_to_folder.
  rewrite lookup_insert_ne, lookup_makedirs_ne by done.
  destruct (lookup_prune (n_checkpoints_to_keep l) (makedirs k d) j) as [->| ->];
    [left; by apply lookup_makedirs_ne|by right].
Qed.

(** A keep-count of zero removes nothing: the slice
    [existing_checkpoints[:-0]] is empty, so every directory that was
    there stays as it was. *)
Theorem keep_zero_removes_nothing l (k j : Z) d :
  n_checkpoints_to_keep l = 0 → j ≠ k →
  save_to_folder l k d !! j = d !! j.
Proof.
  intros HK Hj. unfold save_to_folder.
  rewrite lookup_insert_ne, lookup_makedirs_ne by done.
  rewrite HK. unfold prune, py_slice_to, py_clip.
  change (- 0) with 0. rewrite Z.ltb_irrefl.
  replace (Z.to_nat (0 `min` _)) with 0%nat by lia.
  destruct (_ <? _); simpl; by apply lookup_makedirs_ne.
Qed.
End SaveAnywhere.

Lemma save_keeps_largest_witness :
  1 ≤ n_checkpoints_to_keep ex_learner ∧
  (size (save_to_folder (C := ex_collaborators None) ex_learner 5 ex_folder_10)
   ≤ Z.to_nat (n_checkpoints_to_keep ex_learner) + 1)%nat.
Proof.
  split; [simpl; lia|].
  apply (save_keeps_largest (C := ex_collaborators None) ex_learner 5 ex_folder_10).
  simpl. lia.
Defined.

Lemma save_leaves_others_alone_witness :
  10 ≠ 5 ∧
  (save_to_folder (C := ex_collaborators None) ex_learner 5 ex_folder_10 !! 10
   = ex_folder_10 !! 10 ∨
   save_to_folder (C := ex_collaborators None) ex_learner 5 ex_folder_10 !! 10
   = None).
Proof.
  split; [lia|].
  apply (save_leaves_others_alone (C := ex_collaborators None) ex_learner 5 10).
  lia.
Defined.

Lemma keep_zero_removes_nothing_witness :
  n_checkpoints_to_keep (ex_learner_keeping 0) = 0 ∧ 10 ≠ 15 ∧
  save_to_folder (C := ex_collaborators None) (ex_learner_keeping 0) 15 ex_folder_10
    !! 10
  = ex_folder_10 !! 10.
Proof.
  split; [reflexivity|]. split; [lia|].
  apply (keep_zero_removes_nothing (C := ex_collaborators None)
           (ex_learner_keeping 0) 15 10); [reflexivity|lia].
Defined.

(** ** [load]: failures and the tracking run *)

Section LoadEdges.
Context {row : Type} {RS : RandomState} {T32 : Float32 row} {F : FloatOps}.
Context {agent_internals ppo_internals weights clock : Type}.
Context {C : Collaborators (row := row) (agent_internals := agent_internals)
               (ppo_internals := ppo_internals) (weights := weights) (clock := clock)}.
Implicit Types (m : Machine (row := row) (agent_internals := agent_internals)
                      (ppo_internals := ppo_internals) (weights := weights)
                      (clock := clock)).

(** How [load] fails.  A missing directory fails the assertion before
    anything is touched.  A failure of the collaborator's [load_from]
    leaves [load] with that exception: the model is as [load_from]
    left it, and nothing else of the learner, of the folder or of the
    log has changed.  A directory without its bookkeeping file raises
    [FileNotFoundError] after [load_from] has already replaced the
    model: the counters, the statistics and the epoch are as before,
    the model is the loaded one. *)
Theorem load_failures m (folder_path : Z) (load_wandb : bool) :
  (save_folder m !! folder_path = None →
   load folder_path load_wandb m = (Raise AssertionError, m)) ∧
  (∀ dir e p,
     save_folder m !! folder_path = Some dir →
     ppo_load_from (ppo_learner (self m)) (ppo_files dir) = (Raise e, p) →
     load folder_path load_wandb m
     = (Raise e, with_self (set_ppo_learner p) m)) ∧
  (∀ dir p,
     save_folder m !! folder_path = Some dir →
     ppo_load_from (ppo_learner (self m)) (ppo_files dir) = (Ok tt, p) →
     book_keeping_file dir = None →
     load folder_path load_wandb m
     = (Raise FileNotFoundError, with_self (set_ppo_learner p) m)).
Proof.
  unfold load, load_from, mbind, Step_bind, step_bind, step_get. simpl.
  split; [by intros ->|]. split.
  - intros dir e p -> Hload. by rewrite Hload.
  - intros dir p -> Hload Hbk. rewrite Hload. simpl. by rewrite Hbk.
Qed.

(** The tracking run survives a checkpoint.  When the saving learner
    had a run attached and [load_wandb] is set, [load] answers [True],
    the loading learner holds a run with the same id, project, entity
    and group, and exactly one [wandb.init] has happened; with
    [load_wandb] unset, or with no run saved, [load] answers [False]
    and the run of the loading learner is the one it had. *)
Theorem load_resumes_tracking m m' (k : Z) (load_wandb : bool) (p : PPOLearner) :
  save_folder m' = save_folder (save k m) →
  ppo_load_from (ppo_learner (self m'))
    (Some (ppo_save_to (ppo_learner (self m)))) = (Ok tt, p) →
  ∃ m'',
    load k load_wandb m'
    = (Ok (bool_decide (is_Some (wandb_run (self m))) && load_wandb), m'') ∧
    match wandb_run (self m), load_wandb with
    | Some run, true =>
        wandb_run (self m'') = Some run ∧
        events m'' = events m' ++ [EvWandbInit run]
    | _, _ =>
        wandb_run (self m'') = wandb_run (self m') ∧ events m'' = events m'
    end.
Proof.
  intros Hfolder Hload.
  unfold load, mbind, Step_bind, step_bind, step_get. simpl.
  rewrite Hfolder. unfold save. simpl. rewrite save_to_folder_lookup. simpl.
  unfold load_from. rewrite Hload. simpl.
  destruct (wandb_run (self m)) as [[id project entity group]|], load_wandb; simpl;
    eexists; (split; [reflexivity|]); simpl; by repeat split.
Qed.
End LoadEdges.

Lemma load_failures_witness :
  save_folder ex_machine !! 7 = None ∧
  load (C := ex_collaborators None) 7 true ex_machine
  = (Raise AssertionError, ex_machine) ∧
  load (C := ex_collaborators None) 8 true
    (with_save_folder (λ _, ex_folder_no_files) ex_machine)
  = (Raise FileNotFoundError,
     with_self (set_ppo_learner (ppo_learner ex_learner))
       (with_save_folder (λ _, ex_folder_no_files) ex_machine)) ∧
  load (C := ex_collaborators None) 3 true
    (with_save_folder (λ _, ex_folder_no_bookkeeping) ex_machine)
  = (Raise FileNotFoundError,
     with_self (set_ppo_learner (@mkPPOLearner unit 9 tt))
       (with_save_folder (λ _, ex_folder_no_bookkeeping) ex_machine)).
Proof.
  split; [reflexivity|]. split; [|split].
  - apply (load_failures (C := ex_collaborators None) ex_machine 7 true).
    reflexivity.
  - destruct (load_failures (C := ex_collaborators None)
                (with_save_folder (λ _, ex_folder_no_files) ex_machine) 8 true)
      as (_ & Hfails & _).
    apply (Hfails {| ppo_files := None; book_keeping_file := None |});
      reflexivity.
  - destruct (load_failures (C := ex_collaborators None)
                (with_save_folder (λ _, ex_folder_no_bookkeeping) ex_machine)
                3 true)
      as (_ & _ & Hmissing).
    apply (Hmissing {| ppo_files := Some 9; book_keeping_file := None |});
      reflexivity.
Defined.

Lemma load_resumes_tracking_witness :
  save_folder
    (with_save_folder
       (λ _, save_folder (save (C := ex_collaborators None) 4 ex_machine_tracked))
       ex_machine)
  = save_folder (save (C := ex_collaborators None) 4 ex_machine_tracked) ∧
  ex_ppo_load_from (ppo_learner ex_learner) (Some 0)
  = (Ok tt, ppo_learner ex_learner) ∧
  ∃ m'',
    load (C := ex_collaborators None) 4 true
      (with_save_folder
         (λ _, save_folder (save (C := ex_collaborators None) 4 ex_machine_tracked))
         ex_machine)
    = (Ok true, m'') ∧
    wandb_run (self m'') = Some ex_run.
Proof.
  split; [reflexivity|]. split; [reflexivity|].
  destruct (load_resumes_tracking (C := ex_collaborators None)
              ex_machine_tracked
              (with_save_folder
                 (λ _, save_folder (save (C := ex_collaborators None) 4
                                      ex_machine_tracked))
                 ex_machine)
              4 true (ppo_learner ex_learner))
    as (m'' & Hload & Hrun & _); [reflexivity|reflexivity|].
  exists m''. split; [exact Hload|exact Hrun].
Defined.

(** ** The report of an epoch *)

Section ReportEdges.
Context {row : Type} {RS : RandomState} {T32 : Float32 row} {F : FloatOps}.
Context {agent_internals ppo_internals : Type}.
Implicit Types (l : Learner (row := row) (agent_internals := agent_internals)
                      (ppo_internals := ppo_internals)).
Implicit Types (ppo_report report : gmap string (Num (F := F))).

Ltac name_neq := let H := fresh in intros H; vm_compute in H; discriminate H.

(** The report is the update's metrics with the loop's own metrics
    written over them: a metric of the update whose name is none of
    the loop's reaches the sink unchanged, and each of the eight loop
    metrics holds the loop's value even when the update reported a
    metric of the same name. *)
Theorem report_merges_metrics l ppo_report (steps_collected : Z)
    (collection_time epoch_time : float) report :
  assemble_report l ppo_report steps_collected collection_time epoch_time
  = Ok report →
  (∀ key, key ≠ Value_Function_Loss → key ∉ loop_metric_names →
          report !! key = ppo_report !! key) ∧
  report !! Cumulative_Timesteps = Some (PyInt (cumulative_timesteps (agent l))) ∧
  report !! Total_Iteration_Time = Some (PyFloat epoch_time) ∧
  report !! Timesteps_Collected = Some (PyInt steps_collected) ∧
  report !! Timestep_Collection_Time = Some (PyFloat collection_time) ∧
  report !! Timestep_Consumption_Time
  = Some (PyFloat (fsub epoch_time collection_time)) ∧
  report !! Collected_Steps_per_Second
  = Some (PyFloat (fdiv (float_of_int steps_collected) collection_time)) ∧
  report !! Overall_Steps_per_Second
  = Some (PyFloat (fdiv (float_of_int steps_collected) epoch_time)) ∧
  report !! Policy_Reward
  = Some (PyFloat (default nan (average_reward (agent l)))).
Proof.
  unfold assemble_report.
  destruct (fis_zero collection_time); [done|].
  destruct (fis_zero epoch_time); [done|].
  rewrite (right_id_L ∅ (∪)). intros [= <-].
  split.
  - intros key Hvfl Hkey. unfold loop_metric_names in Hkey.
    repeat (apply not_elem_of_cons in Hkey as [? Hkey]).
    destruct (average_reward (agent l)), (epoch l <? 1);
      by rewrite !lookup_insert_ne by congruence.
  - destruct (average_reward (agent l)), (epoch l <? 1); simpl;
      repeat split;
      (rewrite !lookup_insert_ne by name_neq; apply lookup_insert_eq)
      || apply lookup_insert_eq.
Qed.

(** The report is assembled exactly when neither the collection time
    nor the iteration time is zero; otherwise the division raises
    [ZeroDivisionError], the only exception these statements raise. *)
Theorem report_needs_nonzero_times l ppo_report (steps_collected : Z)
    (collection_time epoch_time : float) :
  ((∃ report,
      assemble_report l ppo_report steps_collected collection_time epoch_time
      = Ok report) ↔
   fis_zero collection_time = false ∧ fis_zero epoch_time = false) ∧
  (∀ e, assemble_report l ppo_report steps_collected collection_time epoch_time
        = Raise e → e = ZeroDivisionError).
Proof.
  unfold assemble_report.
  destruct (fis_zero collection_time), (fis_zero epoch_time); split;
    try (split; [by intros [? [=]]|by intros [[=] [=]]]);
    try (by intros e [= <-]); try done.
  split; eauto.
Qed.
End ReportEdges.

Lemma report_merges_metrics_witness :
  ∃ report,
    assemble_report ex_learner
      {[ "Policy Entropy" := PyFloat (F := ex_floats) (ExMilli 700);
         Cumulative_Timesteps := PyInt (F := ex_floats) 99 ]}
      2 (ExMilli 500) (ExMilli 1000) = Ok report ∧
    report !! "Policy Entropy" = Some (PyFloat (F := ex_floats) (ExMilli 700)) ∧
    report !! Cumulative_Timesteps = Some (PyInt (F := ex_floats) 0).
Proof.
  eexists. split; [reflexivity|].
  destruct (report_merges_metrics ex_learner
              {[ "Policy Entropy" := PyFloat (F := ex_floats) (ExMilli 700);
                 Cumulative_Timesteps := PyInt (F := ex_floats) 99 ]}
              2 (ExMilli 500) (ExMilli 1000) _ eq_refl)
    as (Hpass & Hcum & _).
  split; [|exact Hcum].
  rewrite Hpass; [reflexivity|discriminate|].
  unfold loop_metric_names.
  repeat (apply not_elem_of_cons; split; [discriminate|]). apply not_elem_of_nil.
Defined.

Lemma report_needs_nonzero_times_witness :
  fis_zero (FloatOps := ex_floats) (ExMilli 0) = true ∧
  assemble_report ex_learner ∅ 2 (ExMilli 0) (ExMilli 1000)
  = Raise ZeroDivisionError.
Proof.
  split; [reflexivity|].
  destruct (report_needs_nonzero_times ex_learner ∅ 2 (ExMilli 0) (ExMilli 1000))
    as [Hok Hraise].
  destruct (assemble_report ex_learner ∅ 2 (ExMilli 0) (ExMilli 1000))
    as [report|e] eqn:Hr.
  - assert (fis_zero (FloatOps := ex_floats) (ExMilli 0) = false) as Hz
      by (apply Hok; by exists report).
    discriminate Hz.
  - by rewrite (Hraise e eq_refl).
Defined.

(** ** The steps of an epoch *)

Section EpochSteps.
Context {row : Type} {RS : RandomState} {T32 : Float32 row} {F : FloatOps}.
Context {agent_internals ppo_internals weights clock : Type}.
Context {C : Collaborators (row := row) (agent_internals := agent_internals)
               (ppo_internals := ppo_internals) (weights := weights) (clock := clock)}.
Implicit Types (m : Machine (row := row) (agent_internals := agent_internals)
                      (ppo_internals := ppo_internals) (weights := weights)
                      (clock := clock)).
Implicit Types (e : Experience (row := row)).

(** [add_new_experience] is all or nothing.  When the value
    estimator or the advantage computation raises, or when the
    experience is empty ([next_states[-1]] raises [IndexError]), the
    learner is exactly as before: neither the running statistics nor
    the buffer have changed.  When it succeeds, the statistics have
    been incremented once with the returns and the buffer has received
    one submission: the seven collected tensors with the value targets
    and the advantages of [compute_gae]. *)
Theorem add_new_experience_all_or_nothing e m (r : Result unit) m' :
  add_new_experience e m = (r, m') →
  match r with
  | Raise x => m' = m
  | Ok _ =>
      ∃ inp val_preds value_targets advantages0 returns,
        val_inp e = Ok inp ∧
        value_net (ppo_learner (self m)) inp = Ok val_preds ∧
        compute_gae (exp_rewards e) (exp_dones e) (exp_truncated e) val_preds
          (gae_gamma (self m)) (gae_lambda (self m))
          (welford_std (return_stats (self m)))
        = Ok (value_targets, advantages0, returns) ∧
        return_stats (self m')
        = welford_increment (return_stats (self m)) returns
            (Z.of_nat (length returns)) ∧
        experience_buffer (self m')
        = submit_experience (experience_buffer (self m))
            {| sub_states := exp_states e;
               sub_actions := exp_actions e;
               sub_log_probs := exp_log_probs e;
               sub_rewards := exp_rewards e;
               sub_next_states := exp_next_states e;
               sub_dones := exp_dones e;
               sub_truncated := exp_truncated e;
               sub_values := value_targets;
               sub_advantages := advantages0 |} ∧
        agent (self m') = agent (self m) ∧
        ppo_learner (self m') = ppo_learner (self m) ∧
        save_folder m' = save_folder m ∧ events m' = events m
  end ∧
  (exp_next_states e = [] → r = Raise IndexError).
Proof.
  unfold add_new_experience, mbind, Step_bind, step_bind, step_get,
    step_of_result, step_do.
  simpl.
  destruct (val_inp e) as [inp|x1] eqn:Hinp.
  - assert (exp_next_states e ≠ []) as Hne.
    { intros Hnil. unfold val_inp in Hinp. by rewrite Hnil in Hinp. }
    destruct (value_net (ppo_learner (self m)) inp) as [val_preds|x2] eqn:Hval;
      [|by intros [= <- <-]].
    destruct (compute_gae _ _ _ _ _ _ _) as [[[vt adv] ret]|x3] eqn:Hgae;
      [|by intros [= <- <-]].
    intros [= <- <-]. split; [|done].
    exists inp, val_preds, vt, adv, ret. by repeat split.
  - intros [= <- <-]. split; [done|].
    intros _. unfold val_inp in Hinp.
    destruct (last (exp_next_states e)); by simplify_eq.
Qed.

(** The epoch counter counts completed epochs: an epoch that runs to
    its end adds one to [self.epoch], and an epoch that raises, in any
    of its steps, leaves it as it was. *)
Theorem epoch_counts_completed_epochs m (r : Result unit) m' :
  _learn_epoch m = (r, m') →
  epoch (self m') = match r with
                    | Ok _ => epoch (self m) + 1
                    | Raise _ => epoch (self m)
                    end.
Proof.
  unfold _learn_epoch, mbind, Step_bind, step_bind.
  destruct (perf_counter_now m) as [[t0|e0] ma] eqn:Ha;
    destruct (quiet_perf_counter_now _ _ _ Ha) as (_ & Epa & _);
    [|by intros [= <- <-]].
  destruct (collect ma) as [[[[ex sc] ct]|e1] mb] eqn:Hb;
    destruct (quiet_collect _ _ _ Hb) as (_ & Epb & _);
    [|intros [= <- <-]; congruence].
  destruct (add_new_experience ex mb) as [[u|e2] mc] eqn:Hc;
    destruct (quiet_add_new_experience _ _ _ _ Hc) as (_ & Epc & _);
    [|intros [= <- <-]; congruence].
  destruct (update mc) as [[ppo_report|e3] md] eqn:Hd;
    destruct (quiet_update _ _ _ Hd) as (_ & Epd & _);
    [|intros [= <- <-]; congruence].
  destruct (perf_counter_now md) as [[t1|e4] me] eqn:He;
    destruct (quiet_perf_counter_now _ _ _ He) as (_ & Epe & _);
    [|intros [= <- <-]; congruence].
  unfold step_get, step_of_result.
  destruct (assemble_report (self me) ppo_report sc ct (fsub t1 t0))
    as [report|e5]; [|intros [= <- <-]; congruence].
  assert (epoch (self (report_metrics report me).2) = epoch (self me)) as Epf.
  { unfold report_metrics. by destruct (report_metrics_raises report). }
  destruct (report_metrics report me) as [[u'|e6] mf]; simpl in Epf;
    [|intros [= <- <-]; congruence].
  destruct (checkpoint mf) as [[u''|e7] mg] eqn:Hg;
    destruct (quiet_checkpoint _ _ _ Hg) as (_ & Epg & _);
    [|intros [= <- <-]; congruence].
  intros [= <- <-]. simpl. congruence.
Qed.

End EpochSteps.

(** ** The loop ends *)

Section LoopEnds.
Context {row : Type} {RS : RandomState} {T32 : Float32 row} {F : FloatOps}.
Context {agent_internals ppo_internals weights clock : Type}.
Context {C : Collaborators (row := row) (agent_internals := agent_internals)
               (ppo_internals := ppo_internals) (weights := weights) (clock := clock)}.
Implicit Types (m : Machine (row := row) (agent_internals := agent_internals)
                      (ppo_internals := ppo_internals) (weights := weights)
                      (clock := clock)).

#[local] Abbreviation preserves_here :=
  (preserves (row := row) (RS := RS) (F := F) (agent_internals := agent_internals)
     (ppo_internals := ppo_internals) (weights := weights) (clock := clock)).

Lemma preserves_bind {A B D} (f : Machine → D) (c : Step A) (k : A → Step B) :
  preserves_here f c → (∀ a, preserves_here f (k a)) →
  preserves_here f (step_bind k c).
Proof.
  intros Hc Hk m r m'. unfold step_bind.
  destruct (c m) as [[a|e] m1] eqn:Hcm.
  - intros Hkm. rewrite (Hk a _ _ _ Hkm). by apply (Hc _ _ _ Hcm).
  - intros [= <- <-]. by apply (Hc _ _ _ Hcm).
Qed.

Lemma preserves_pure {A D} (f : Machine → D) (x : Result A) :
  preserves_here f (step_of_result x).
Proof. by intros m r m' [= <- <-]. Qed.

Lemma preserves_get {D} (f : Machine → D) : preserves_here f step_get.
Proof. by intros m r m' [= <- <-]. Qed.

Lemma preserves_do {D} (f : Machine → D) (g : Machine → Machine) :
  (∀ m, f (g m) = f m) → preserves_here f (step_do g).
Proof. intros Hg m r m' [= <- <-]. apply Hg. Qed.

Lemma perf_counter_now_loop_view : preserves_here loop_view perf_counter_now.
Proof.
  intros m r m'. unfold perf_counter_now.
  destruct (perf_counter (clock_now m)). by intros [= <- <-].
Qed.

Lemma collect_loop_config : preserves_here loop_config collect.
Proof.
  intros m r m'. unfold collect.
  destruct (collect_timesteps _ _). by intros [= <- <-].
Qed.

Lemma update_loop_view : preserves_here loop_view update.
Proof.
  intros m r m'. unfold update.
  destruct (ppo_learn _ _) as [[? ?] ?]. by intros [= <- <-].
Qed.

Lemma report_metrics_loop_view report :
  preserves_here loop_view (report_metrics report).
Proof.
  intros m r m'. unfold report_metrics.
  destruct (report_metrics_raises report); by intros [= <- <-].
Qed.

Lemma add_new_experience_loop_view e :
  preserves_here loop_view (add_new_experience e).
Proof.
  unfold add_new_experience.
  apply preserves_bind; [apply preserves_get|intros m0].
  apply preserves_bind; [apply preserves_pure|intros inp].
  apply preserves_bind; [apply preserves_pure|intros val_preds].
  apply preserves_bind; [apply preserves_pure|intros [[vt adv] ret]].
  apply preserves_bind; [by apply preserves_do|intros _].
  by apply preserves_do.
Qed.

Lemma checkpoint_loop_view : preserves_here loop_view checkpoint.
Proof.
  unfold checkpoint. apply preserves_bind; [apply preserves_get|intros m0].
  destruct (_ =? 0); [by intros m r m' [= <- <-]|].
  destruct (_ =? 0); [by apply preserves_do|by intros m r m' [= <- <-]].
Qed.

(** An epoch that runs to its end has collected: the limit and the
    timesteps per epoch are as before, and the count of collected
    timesteps is the one the collector left. *)
Lemma _learn_epoch_progress m u m' :
  (∀ a r a',
     collect_timesteps a (ts_per_epoch (self m)) = (Ok r, a') →
     cumulative_timesteps a + 1 ≤ cumulative_timesteps a') →
  _learn_epoch m = (Ok u, m') →
  loop_config m' = loop_config m ∧
  cumulative_timesteps (agent (self m)) + 1 ≤ cumulative_timesteps (agent (self m')).
Proof.
  intros Hcollect.
  unfold _learn_epoch, mbind, Step_bind, step_bind.
  destruct (perf_counter_now m) as [[t0|e0] ma] eqn:Ha; [|done].
  pose proof (perf_counter_now_loop_view _ _ _ Ha) as Va.
  unfold loop_view, loop_config in Va. injection Va as Va1 Va2 Va3.
  assert (self ma = self m) as Sa.
  { unfold perf_counter_now in Ha. destruct (perf_counter (clock_now m)).
    by injection Ha as _ <-. }
  destruct (collect ma) as [[[[ex sc] ct]|e1] mb] eqn:Hb; [|done].
  pose proof (collect_loop_config _ _ _ Hb) as Vb.
  unfold loop_config in Vb. injection Vb as Vb1 Vb2.
  assert (cumulative_timesteps (agent (self ma)) + 1
          ≤ cumulative_timesteps (agent (self mb))) as Hstep.
  { unfold collect in Hb. rewrite Sa in Hb.
    destruct (collect_timesteps (agent (self m)) (ts_per_epoch (self m)))
      as [rc a'] eqn:Hct.
    injection Hb as -> <-. simpl. rewrite Sa. by eapply Hcollect. }
  destruct (add_new_experience ex mb) as [[u1|e2] mc] eqn:Hc; [|done].
  pose proof (add_new_experience_loop_view _ _ _ _ Hc) as Vc.
  unfold loop_view, loop_config in Vc. injection Vc as Vc1 Vc2 Vc3.
  destruct (update mc) as [[ppo_report|e3] md] eqn:Hd; [|done].
  pose proof (update_loop_view _ _ _ Hd) as Vd.
  unfold loop_view, loop_config in Vd. injection Vd as Vd1 Vd2 Vd3.
  destruct (perf_counter_now md) as [[t1|e4] me] eqn:He; [|done].
  pose proof (perf_counter_now_loop_view _ _ _ He) as Ve.
  unfold loop_view, loop_config in Ve. injection Ve as Ve1 Ve2 Ve3.
  unfold step_get, step_of_result.
  destruct (assemble_report (self me) ppo_report sc ct (fsub t1 t0))
    as [report|e5]; [|done].
  destruct (report_metrics report me) as [[u'|e6] mf] eqn:Hf; [|done].
  pose proof (report_metrics_loop_view _ _ _ _ Hf) as Vf.
  unfold loop_view, loop_config in Vf. injection Vf as Vf1 Vf2 Vf3.
  destruct (checkpoint mf) as [[u''|e7] mg] eqn:Hg; [|done].
  pose proof (checkpoint_loop_view _ _ _ Hg) as Vg.
  unfold loop_view, loop_config in Vg. injection Vg as Vg1 Vg2 Vg3.
  intros [= <- <-]. unfold loop_config. simpl. split; [congruence|lia].
Qed.

Lemma _learn_loop_ends (fuel : nat) m :
  (∀ a n r a',
     1 ≤ n → collect_timesteps a n = (Ok r, a') →
     cumulative_timesteps a + 1 ≤ cumulative_timesteps a') →
  1 ≤ ts_per_epoch (self m) →
  timesteps_left m ≤ Z.of_nat fuel →
  ∃ r m', _learn_loop fuel m = Some (r, m').
Proof.
  intros Hcollect. revert m.
  induction fuel as [|fuel IH]; intros m Hts Hleft; simpl;
    unfold timesteps_left in Hleft.
  - destruct (Z.ltb_spec (cumulative_timesteps (agent (self m)))
                (timestep_limit (self m))); [lia|eauto].
  - destruct (Z.ltb_spec (cumulative_timesteps (agent (self m)))
                (timestep_limit (self m))); [|eauto].
    destruct (_learn_epoch m) as [[u|e] m1] eqn:Hepoch; [|eauto].
    destruct (_learn_epoch_progress m u m1) as [Hcfg Hcum]; [|done|].
    { intros a r a'. by apply Hcollect. }
    unfold loop_config in Hcfg. injection Hcfg as Hlim Htpe.
    apply IH; [lia|]. unfold timesteps_left. lia.
Qed.

(** [learn] returns.  When every epoch asks the collector for at
    least one timestep and the collector, each time it returns, has
    counted at least one more, the loop runs at most as many epochs as
    there are timesteps left to collect, and [learn] ends after them
    (normally, or with an exception that [learn] does not catch). *)
Theorem learn_terminates m :
  (∀ a n r a',
     1 ≤ n → collect_timesteps a n = (Ok r, a') →
     cumulative_timesteps a + 1 ≤ cumulative_timesteps a') →
  1 ≤ ts_per_epoch (self m) →
  ∃ r m', learn (Z.to_nat (timesteps_left m)) m = Some (r, m').
Proof.
  intros Hcollect Hts.
  destruct (_learn_loop_ends (Z.to_nat (timesteps_left m)) m Hcollect Hts)
    as (r & m1 & Hloop); [lia|].
  unfold learn, _learn. rewrite Hloop.
  destruct r as [[]|e]; [eauto|]. destruct (isinstance_Exception e); eauto.
Qed.
End LoopEnds.

Lemma add_new_experience_all_or_nothing_witness :
  add_new_experience (C := ex_collaborators None) ex_no_experience ex_machine
  = (Raise IndexError, ex_machine) ∧
  exp_next_states ex_no_experience = [] ∧
  ex_machine = ex_machine.
Proof.
  assert (add_new_experience (C := ex_collaborators None) ex_no_experience ex_machine
          = (Raise IndexError, ex_machine)) as Hrun by reflexivity.
  split; [exact Hrun|]. split; [reflexivity|].
  destruct (add_new_experience_all_or_nothing (C := ex_collaborators None)
              ex_no_experience ex_machine _ _ Hrun) as [Hsame _].
  exact Hsame.
Defined.

Lemma epoch_counts_completed_epochs_witness :
  (_learn_epoch (C := ex_collaborators None) ex_machine).1 = Ok tt ∧
  epoch (self (_learn_epoch (C := ex_collaborators None) ex_machine).2)
  = epoch (self ex_machine) + 1.
Proof.
  assert ((_learn_epoch (C := ex_collaborators None) ex_machine).1 = Ok tt)
    as Hok by (vm_compute; reflexivity).
  split; [exact Hok|].
  destruct (_learn_epoch (C := ex_collaborators None) ex_machine)
    as [r m'] eqn:Hrun.
  simpl in Hok. subst r.
  exact (epoch_counts_completed_epochs (C := ex_collaborators None)
           ex_machine _ _ Hrun).
Defined.

Lemma learn_terminates_witness :
  (∀ a n r a',
     1 ≤ n → ex_collect_timesteps None a n = (Ok r, a') →
     cumulative_timesteps a + 1 ≤ cumulative_timesteps a') ∧
  1 ≤ ts_per_epoch (self ex_machine) ∧
  ∃ r m',
    learn (C := ex_collaborators None) (Z.to_nat (timesteps_left ex_machine))
      ex_machine = Some (r, m').
Proof.
  assert (∀ a n r a',
            1 ≤ n → ex_collect_timesteps None a n = (Ok r, a') →
            cumulative_timesteps a + 1 ≤ cumulative_timesteps a') as Hcollect.
  { intros a n r a' Hn. unfold ex_collect_timesteps.
    intros [= _ <-]. simpl. lia. }
  split; [exact Hcollect|]. split; [simpl; lia|].
  apply (learn_terminates (C := ex_collaborators None) ex_machine);
    [exact Hcollect|simpl; lia].
Defined.

(** ** The device of a learner *)

(** What [Learner.__init__] makes of [device]: the result is never
    ["auto"]; ["auto"] becomes ["cuda:0"] with CUDA and ["cpu"]
    without; ["gpu"] becomes ["cuda:0"] with CUDA and is kept as
    ["gpu"] without (there is no fall-back to the CPU); every other
    string is kept. *)
Theorem resolve_device_cases (device0 : string) (cuda_is_available : bool) :
  resolve_device device0 cuda_is_available ≠ "auto" ∧
  (device0 = "auto" →
   resolve_device device0 cuda_is_available
   = if cuda_is_available then "cuda:0" else "cpu") ∧
  (device0 = "gpu" →
   resolve_device device0 cuda_is_available
   = if cuda_is_available then "cuda:0" else "gpu") ∧
  (device0 ≠ "auto" → device0 ≠ "gpu" →
   resolve_device device0 cuda_is_available = device0).
Proof.
  unfold resolve_device.
  repeat split.
  - destruct cuda_is_available; repeat case_bool_decide; simpl; congruence.
  - intros ->. by destruct cuda_is_available.
  - intros ->. by destruct cuda_is_available.
  - intros Ha Hg. rewrite !bool_decide_eq_false_2 by done. done.
Qed.

Lemma resolve_device_cases_witness :
  "gpu" = "gpu" ∧ resolve_device "gpu" false = "gpu" ∧
  resolve_device "auto" false = "cpu".
Proof.
  split; [reflexivity|].
  destruct (resolve_device_cases "gpu" false) as (_ & _ & Hgpu & _).
  destruct (resolve_device_cases "auto" false) as (_ & Hauto & _).
  split; [exact (Hgpu eq_refl)|exact (Hauto eq_refl)].
Defined.

